(** * kartograf: the bogon classifier and the context of a run

    A shallow embedding of [kartograf/bogon.py] and [kartograf/context.py]
    together with the parts of the Python runtime they call: the [str]
    methods [lower], [replace], [strip], [split] and [partition], the [int]
    constructor on strings, [str] on integers, the [ipaddress] module of the
    standard library ([ip_network], [subnet_of]) and the pure paths of
    [pathlib].

    Conventions.
    - A Python [str] is a [string]: a sequence of code points below 256.
    - A Python [int] is a [Z].
    - A call that can raise returns a [result]: [Ok v] or [Raise e]. *)

From Stdlib Require Import ZArith List Bool Ascii String Lia.
Import ListNotations.

Local Open Scope Z_scope.

(** ** Exceptions and results *)

(** The exceptions raised on the modelled paths. [AddressValueError] and
    [NetmaskValueError] are the two subclasses of [ValueError] that
    [ipaddress] declares; [TypeError] is what it raises when networks of
    different versions are compared. *)
Inductive exn : Type :=
| ValueError
| AddressValueError
| NetmaskValueError
| TypeError.

(** [isinstance(e, ValueError)]. *)
Definition isinstance_ValueError (e : exn) : bool :=
  match e with
  | TypeError => false
  | _ => true
  end.

Inductive result (A : Type) : Type :=
| Ok (a : A)
| Raise (e : exn).

Arguments Ok {A} a.
Arguments Raise {A} e.

Definition bind {A B : Type} (r : result A) (k : A -> result B) : result B :=
  match r with
  | Ok a => k a
  | Raise e => Raise e
  end.

Notation "x <- r ;; k" := (bind r (fun x => k))
  (at level 61, r at next level, right associativity).

(** [try: r except ValueError: h]; the handler also takes the subclasses. *)
Definition except_ValueError {A : Type} (r : result A) (h : result A) : result A :=
  match r with
  | Ok a => Ok a
  | Raise e => if isinstance_ValueError e then h else Raise e
  end.

(** [try: r except AddressValueError: h]. *)
Definition except_AddressValueError {A : Type} (r : result A) (h : result A)
  : result A :=
  match r with
  | Raise AddressValueError => h
  | other => other
  end.

(** [try: r except NetmaskValueError: h]. *)
Definition except_NetmaskValueError {A : Type} (r : result A) (h : result A)
  : result A :=
  match r with
  | Raise NetmaskValueError => h
  | other => other
  end.

(** [try: r except (AddressValueError, NetmaskValueError): h]. *)
Definition except_Address_or_Netmask {A : Type} (r : result A) (h : result A)
  : result A :=
  match r with
  | Raise AddressValueError => h
  | Raise NetmaskValueError => h
  | other => other
  end.

(** ** Python built-ins *)

Module Py.

Definition ord (c : ascii) : N := N_of_ascii c.

Definition in_range (lo hi : N) (c : ascii) : bool :=
  ((lo <=? ord c) && (ord c <=? hi))%N.

(** [Py_UNICODE_ISSPACE] on code points below 256: the characters removed by
    [str.strip()]. *)
Definition isspace (c : ascii) : bool :=
  in_range 9 13 c || in_range 28 32 c || (ord c =? 133)%N || (ord c =? 160)%N.

(** [Py_ISSPACE], the C-locale test used inside [PyLong_FromString]. *)
Definition c_isspace (c : ascii) : bool :=
  in_range 9 13 c || (ord c =? 32)%N.

(** ['0'] to ['9']. *)
Definition isdigit_char (c : ascii) : bool := in_range 48 57 c.

(** [s.isascii() and s.isdigit()]: non-empty and made of ['0'..'9'] only. *)
Fixpoint all_digits (s : string) : bool :=
  match s with
  | EmptyString => true
  | String c s' => isdigit_char c && all_digits s'
  end.

Definition isascii_isdigit (s : string) : bool :=
  match s with
  | EmptyString => false
  | _ => all_digits s
  end.

(** [str.lower()]: below 256 the cased letters are A-Z and the Latin-1
    capitals U+00C0..U+00DE (U+00D7, the multiplication sign, excepted). *)
Definition lower_char (c : ascii) : ascii :=
  if in_range 65 90 c || in_range 192 214 c || in_range 216 222 c
  then ascii_of_N (ord c + 32)
  else c.

Fixpoint lower (s : string) : string :=
  match s with
  | EmptyString => EmptyString
  | String c s' => String (lower_char c) (lower s')
  end.

(** [s.startswith(p)]. *)
Fixpoint startswith (s p : string) {struct p} : bool :=
  match p with
  | EmptyString => true
  | String c p' =>
      match s with
      | EmptyString => false
      | String d s' => Ascii.eqb d c && startswith s' p'
      end
  end.

(** [str.replace(old, new)]: every non-overlapping occurrence of [old], found
    left to right, is replaced; the scan resumes after the occurrence and
    never looks at the text it has produced. [skip] counts the characters of
    the occurrence being consumed. *)
Fixpoint replace_from (old new : string) (skip : nat) (s : string) : string :=
  match s with
  | EmptyString => EmptyString
  | String c s' =>
      match skip with
      | S k => replace_from old new k s'
      | O =>
          if startswith s old
          then (new ++ replace_from old new (Nat.pred (String.length old)) s')%string
          else String c (replace_from old new O s')
      end
  end.

(** With an empty [old], [new] is inserted before every character and at
    the end. *)
Fixpoint intersperse (new s : string) : string :=
  match s with
  | EmptyString => new
  | String c s' => (new ++ String c (intersperse new s'))%string
  end.

Definition replace (old new s : string) : string :=
  match old with
  | EmptyString => intersperse new s
  | _ => replace_from old new O s
  end.

Fixpoint lstrip (s : string) : string :=
  match s with
  | EmptyString => EmptyString
  | String c s' => if isspace c then lstrip s' else s
  end.

Fixpoint rstrip (s : string) : string :=
  match s with
  | EmptyString => EmptyString
  | String c s' =>
      match rstrip s' with
      | EmptyString => if isspace c then EmptyString else String c EmptyString
      | r => String c r
      end
  end.

(** [str.strip()] without argument. *)
Definition strip (s : string) : string := rstrip (lstrip s).

(** [str.split(sep)] for a one-character separator: always at least one
    field. *)
Fixpoint split (sep : ascii) (s : string) : list string :=
  match s with
  | EmptyString => [EmptyString]
  | String c s' =>
      if Ascii.eqb c sep then EmptyString :: split sep s'
      else
        match split sep s' with
        | p :: ps => String c p :: ps
        | [] => [String c EmptyString]
        end
  end.

(** [sep in s] for a one-character [sep]. *)
Fixpoint contains (sep : ascii) (s : string) : bool :=
  match s with
  | EmptyString => false
  | String c s' => Ascii.eqb c sep || contains sep s'
  end.

(** [str.partition(sep)] for a one-character separator: the text before the
    first [sep], whether [sep] was found, and the text after it. *)
Fixpoint partition (sep : ascii) (s : string) : string * bool * string :=
  match s with
  | EmptyString => (EmptyString, false, EmptyString)
  | String c s' =>
      if Ascii.eqb c sep then (EmptyString, true, s')
      else
        let '(before, found, after) := partition sep s' in
        (String c before, found, after)
  end.

(** *** [int(s, base)] on a string

    [PyLong_FromUnicodeObject] followed by [PyLong_FromString], for the two
    bases the program uses. *)

Inductive base : Type := Base10 | Base16.

Definition radix (b : base) : Z :=
  match b with
  | Base10 => 10
  | Base16 => 16
  end.

(** [_PyLong_DigitValue]: 0-9, then a-z and A-Z as 10..35. *)
Definition digit_value (c : ascii) : option Z :=
  if in_range 48 57 c then Some (Z.of_N (ord c) - 48)
  else if in_range 97 122 c then Some (Z.of_N (ord c) - 87)
  else if in_range 65 90 c then Some (Z.of_N (ord c) - 55)
  else None.

Definition digit_in (b : base) (c : ascii) : option Z :=
  match digit_value c with
  | Some d => if d <? radix b then Some d else None
  | None => None
  end.

(** [_PyUnicode_TransformDecimalAndSpaceToASCII]: a code point from 127 on
    becomes a blank when it is white space and ['?'] otherwise (none is a
    decimal digit below 256); the text ends after the first ['?']. *)
Fixpoint transform_space_to_ascii (s : string) : string :=
  match s with
  | EmptyString => EmptyString
  | String c s' =>
      if (ord c <? 127)%N then String c (transform_space_to_ascii s')
      else if isspace c then String " " (transform_space_to_ascii s')
      else String "?" EmptyString
  end.

Fixpoint skip_c_space (s : string) : string :=
  match s with
  | EmptyString => EmptyString
  | String c s' => if c_isspace c then skip_c_space s' else s
  end.

(** The digit loop: digits of the base, with single underscores between
    them. [prev_us] tells that the previous character was an underscore;
    the result is the value, the number of digits and the unread rest. *)
Fixpoint scan_digits (b : base) (prev_us : bool) (acc : Z) (ndigits : nat)
  (s : string) : option (Z * nat * string) :=
  match s with
  | EmptyString => if prev_us then None else Some (acc, ndigits, s)
  | String c s' =>
      match digit_in b c with
      | Some d => scan_digits b false (acc * radix b + d) (S ndigits) s'
      | None =>
          if Ascii.eqb c "_"
          then if prev_us then None else scan_digits b true acc ndigits s'
          else if prev_us then None else Some (acc, ndigits, s)
      end
  end.

(** [sys.int_info.default_max_str_digits]: the default limit on the number
    of digits [int] converts in a base that is not a power of two. *)
Definition int_max_str_digits : nat := 4300.

Definition strip_sign (s : string) : Z * string :=
  match s with
  | String "+" s' => (1, s')
  | String "-" s' => (-1, s')
  | _ => (1, s)
  end.

(** An explicit base 16 allows a [0x] or [0X] prefix, and one underscore
    after it. *)
Definition strip_base_prefix (b : base) (s : string) : string :=
  match b, s with
  | Base16, String "0" (String x s') =>
      if Ascii.eqb x "x" || Ascii.eqb x "X"
      then match s' with
           | String "_" s'' => s''
           | _ => s'
           end
      else s
  | _, _ => s
  end.

Definition starts_with_underscore (s : string) : bool :=
  match s with
  | String "_" _ => true
  | _ => false
  end.

Definition over_digit_limit (b : base) (ndigits : nat) : bool :=
  match b with
  | Base10 => Nat.ltb int_max_str_digits ndigits
  | Base16 => false
  end.

Definition int (s : string) (b : base) : result Z :=
  let s0 := skip_c_space (transform_space_to_ascii s) in
  let '(sign, s1) := strip_sign s0 in
  let s2 := strip_base_prefix b s1 in
  if starts_with_underscore s2 then Raise ValueError
  else
    match scan_digits b false 0 O s2 with
    | None => Raise ValueError
    | Some (v, ndigits, rest) =>
        if over_digit_limit b ndigits then Raise ValueError
        else
          match ndigits with
          | O => Raise ValueError
          | S _ =>
              match skip_c_space rest with
              | EmptyString => Ok (sign * v)
              | String _ _ => Raise ValueError
              end
          end
    end.

(** [x.bit_length()]. *)
Definition bit_length (x : Z) : Z :=
  if x =? 0 then 0 else Z.log2 (Z.abs x) + 1.

End Py.

(** ** The [ipaddress] module of the standard library

    The string paths of [ip_network], as the program calls it: a [str]
    argument and the default [strict=True]. The module is the one of
    CPython 3.11: an octet with a leading zero is refused, and an IPv6
    address may carry a zone identifier after a percent sign. *)

Module ipaddress.

Definition IPV4LENGTH : Z := 32.
Definition IPV6LENGTH : Z := 128.

(** The two class families, [_BaseV4] and [_BaseV6], with their class
    attributes. *)
Inductive family : Type := V4 | V6.

Definition family_eqb (f g : family) : bool :=
  match f, g with
  | V4, V4 => true
  | V6, V6 => true
  | _, _ => false
  end.

Definition _version (f : family) : Z :=
  match f with
  | V4 => 4
  | V6 => 6
  end.

Definition _max_prefixlen (f : family) : Z :=
  match f with
  | V4 => IPV4LENGTH
  | V6 => IPV6LENGTH
  end.

Definition _ALL_ONES (f : family) : Z := 2 ^ _max_prefixlen f - 1.

Definition _HEXTET_COUNT : Z := 8.

(** An [IPv4Address] or [IPv6Address] object; [_scope_id] is [None] for
    every IPv4 address. *)
Record IPAddress : Type := mkAddress {
  addr_family : family;
  _ip : Z;
  _scope_id : option string
}.

(** An [IPv4Network] or [IPv6Network] object. *)
Record IPNetwork : Type := mkNetwork {
  network_address : IPAddress;
  _prefixlen : Z
}.

Definition net_family (n : IPNetwork) : family := addr_family (network_address n).

Definition version (n : IPNetwork) : Z := _version (net_family n).

(** The argument [_make_netmask] receives: the text after the slash, or the
    integer [_max_prefixlen] when the literal has no slash. *)
Inductive mask_arg : Type :=
| MaskInt (n : Z)
| MaskStr (s : string).

Definition is_empty (s : string) : bool :=
  match s with
  | EmptyString => true
  | _ => false
  end.

(** [s[0] == c], on a non-empty [s]. *)
Definition starts_with (c : ascii) (s : string) : bool :=
  match s with
  | String c0 _ => Ascii.eqb c0 c
  | EmptyString => false
  end.

Definition _count_righthand_zero_bits (number bits : Z) : Z :=
  if number =? 0 then bits
  else Z.min bits (Py.bit_length (Z.land (Z.lnot number) (number - 1))).

Definition _ip_int_from_prefix (f : family) (prefixlen : Z) : Z :=
  Z.lxor (_ALL_ONES f) (Z.shiftr (_ALL_ONES f) prefixlen).

Definition _prefix_from_ip_int (f : family) (ip_int : Z) : result Z :=
  let trailing_zeroes := _count_righthand_zero_bits ip_int (_max_prefixlen f) in
  let prefixlen := _max_prefixlen f - trailing_zeroes in
  let leading_ones := Z.shiftr ip_int trailing_zeroes in
  let all_ones := Z.shiftl 1 prefixlen - 1 in
  if negb (leading_ones =? all_ones) then Raise ValueError
  else Ok prefixlen.

Definition _report_invalid_netmask {A : Type} : result A :=
  Raise NetmaskValueError.

Definition _prefix_from_prefix_string (f : family) (prefixlen_str : string)
  : result Z :=
  if negb (Py.isascii_isdigit prefixlen_str) then _report_invalid_netmask
  else
    prefixlen <- except_ValueError (Py.int prefixlen_str Py.Base10)
                   _report_invalid_netmask ;;
    if negb ((0 <=? prefixlen) && (prefixlen <=? _max_prefixlen f))
    then _report_invalid_netmask
    else Ok prefixlen.

Definition _split_optional_netmask (address : string) : result (list string) :=
  let addr := Py.split "/" address in
  if (2 <? List.length addr)%nat then Raise AddressValueError
  else Ok addr.

Definition _split_addr_prefix (f : family) (address : string)
  : result (string * mask_arg) :=
  address <- _split_optional_netmask address ;;
  match address with
  | [addr; mask] => Ok (addr, MaskStr mask)
  | addr :: _ => Ok (addr, MaskInt (_max_prefixlen f))
  | [] => Ok (EmptyString, MaskInt (_max_prefixlen f))
  end.

(** *** IPv4 *)

Definition _parse_octet (octet_str : string) : result Z :=
  if is_empty octet_str then Raise ValueError
  else if negb (Py.isascii_isdigit octet_str) then Raise ValueError
  else if (3 <? String.length octet_str)%nat then Raise ValueError
  else if negb (String.eqb octet_str "0") && starts_with "0" octet_str
  then Raise ValueError
  else
    octet_int <- Py.int octet_str Py.Base10 ;;
    if 255 <? octet_int then Raise ValueError
    else Ok octet_int.

(** [int.from_bytes(map(_parse_octet, octets), 'big')]. *)
Fixpoint from_octets (acc : Z) (octets : list string) : result Z :=
  match octets with
  | [] => Ok acc
  | o :: rest =>
      v <- _parse_octet o ;;
      from_octets (acc * 256 + v) rest
  end.

Definition v4_ip_int_from_string (ip_str : string) : result Z :=
  if is_empty ip_str then Raise AddressValueError
  else
    let octets := Py.split "." ip_str in
    if negb (List.length octets =? 4)%nat then Raise AddressValueError
    else except_ValueError (from_octets 0 octets) (Raise AddressValueError).

Definition IPv4Address (address : string) : result IPAddress :=
  if Py.contains "/" address then Raise AddressValueError
  else
    ip <- v4_ip_int_from_string address ;;
    Ok (mkAddress V4 ip None).

(** [_prefix_from_ip_string], which only [_BaseV4._make_netmask] calls: a
    dotted netmask or hostmask after the slash. *)
Definition _prefix_from_ip_string (ip_str : string) : result Z :=
  ip_int <- except_AddressValueError (v4_ip_int_from_string ip_str)
              _report_invalid_netmask ;;
  match _prefix_from_ip_int V4 ip_int with
  | Ok prefixlen => Ok prefixlen
  | Raise e =>
      if isinstance_ValueError e
      then except_ValueError
             (_prefix_from_ip_int V4 (Z.lxor ip_int (_ALL_ONES V4)))
             _report_invalid_netmask
      else Raise e
  end.

Definition v4_make_netmask (arg : mask_arg) : result Z :=
  match arg with
  | MaskInt prefixlen =>
      if negb ((0 <=? prefixlen) && (prefixlen <=? _max_prefixlen V4))
      then _report_invalid_netmask
      else Ok prefixlen
  | MaskStr s =>
      except_NetmaskValueError (_prefix_from_prefix_string V4 s)
        (_prefix_from_ip_string s)
  end.

(** The body shared by [IPv4Network.__init__] and [IPv6Network.__init__]
    once the address and the prefix length are known. *)
Definition check_host_bits (network_address : IPAddress) (prefixlen : Z)
  (strict : bool) : result IPNetwork :=
  let f := addr_family network_address in
  let packed := _ip network_address in
  let netmask := _ip_int_from_prefix f prefixlen in
  if negb (Z.land packed netmask =? packed) then
    if strict then Raise ValueError
    else Ok (mkNetwork (mkAddress f (Z.land packed netmask) None) prefixlen)
  else Ok (mkNetwork network_address prefixlen).

Definition IPv4Network (address : string) (strict : bool) : result IPNetwork :=
  p <- _split_addr_prefix V4 address ;;
  let '(addr, mask) := p in
  network_address <- IPv4Address addr ;;
  prefixlen <- v4_make_netmask mask ;;
  check_host_bits network_address prefixlen strict.

(** *** IPv6 *)

Definition hex_digit (d : Z) : ascii :=
  if d <? 10 then ascii_of_N (Z.to_N (d + 48))
  else ascii_of_N (Z.to_N (d + 87)).

Fixpoint format_x_aux (fuel : nat) (n : Z) (acc : string) : string :=
  match fuel with
  | O => acc
  | S fuel' =>
      let acc' := String (hex_digit (n mod 16)) acc in
      if n / 16 =? 0 then acc' else format_x_aux fuel' (n / 16) acc'
  end.

(** ['%x' % n] for a non-negative [n]; a number has no more hexadecimal
    digits than bits. *)
Definition format_x (n : Z) : string :=
  format_x_aux (S (Z.to_nat (Z.log2 n))) n EmptyString.

(** [_HEX_DIGITS.issuperset(s)]. *)
Fixpoint all_hex_digits (s : string) : bool :=
  match s with
  | EmptyString => true
  | String c s' =>
      (Py.in_range 48 57 c || Py.in_range 65 70 c || Py.in_range 97 102 c)
      && all_hex_digits s'
  end.

Definition _parse_hextet (hextet_str : string) : result Z :=
  if negb (all_hex_digits hextet_str) then Raise ValueError
  else if (4 <? String.length hextet_str)%nat then Raise ValueError
  else Py.int hextet_str Py.Base16.

(** The loop that looks for the one empty field that stands for [::],
    the end points left aside. *)
Fixpoint find_skip_index (parts : list string) (range : list nat)
  (skip_index : option nat) : result (option nat) :=
  match range with
  | [] => Ok skip_index
  | i :: range' =>
      if is_empty (nth i parts EmptyString) then
        match skip_index with
        | Some _ => Raise AddressValueError
        | None => find_skip_index parts range' (Some i)
        end
      else find_skip_index parts range' skip_index
  end.

(** [for i in ...: ip_int <<= 16; ip_int |= _parse_hextet(parts[i])]. *)
Fixpoint parse_hextets (ip_int : Z) (hextets : list string) : result Z :=
  match hextets with
  | [] => Ok ip_int
  | h :: rest =>
      v <- _parse_hextet h ;;
      parse_hextets (Z.lor (Z.shiftl ip_int 16) v) rest
  end.

(** The three counts [parts_hi], [parts_lo] and [parts_skipped]. *)
Definition hextet_layout (parts : list string) (skip_index : option nat)
  : result (Z * Z * Z) :=
  let len := Z.of_nat (List.length parts) in
  let first_empty := is_empty (nth 0 parts EmptyString) in
  let last_empty := is_empty (last parts EmptyString) in
  match skip_index with
  | Some i =>
      let parts_hi := Z.of_nat i in
      let parts_lo := len - Z.of_nat i - 1 in
      parts_hi <- (if first_empty
                   then if negb (parts_hi - 1 =? 0) then Raise AddressValueError
                        else Ok (parts_hi - 1)
                   else Ok parts_hi) ;;
      parts_lo <- (if last_empty
                   then if negb (parts_lo - 1 =? 0) then Raise AddressValueError
                        else Ok (parts_lo - 1)
                   else Ok parts_lo) ;;
      let parts_skipped := _HEXTET_COUNT - (parts_hi + parts_lo) in
      if parts_skipped <? 1 then Raise AddressValueError
      else Ok (parts_hi, parts_lo, parts_skipped)
  | None =>
      if negb (len =? _HEXTET_COUNT) then Raise AddressValueError
      else if first_empty then Raise AddressValueError
      else if last_empty then Raise AddressValueError
      else Ok (len, 0, 0)
  end.

Definition v6_ip_int_from_string (ip_str : string) : result Z :=
  if is_empty ip_str then Raise AddressValueError
  else
    let parts := Py.split ":" ip_str in
    if (List.length parts <? 3)%nat then Raise AddressValueError
    else
      parts <- (if Py.contains "." (last parts EmptyString) then
                  a <- except_AddressValueError
                         (IPv4Address (last parts EmptyString))
                         (Raise AddressValueError) ;;
                  let ipv4_int := _ip a in
                  Ok (removelast parts
                      ++ [format_x (Z.land (Z.shiftr ipv4_int 16) 65535);
                          format_x (Z.land ipv4_int 65535)])
                else Ok parts) ;;
      if (Z.to_nat (_HEXTET_COUNT + 1) <? List.length parts)%nat
      then Raise AddressValueError
      else
        skip_index <- find_skip_index parts
                        (seq 1 (List.length parts - 2)) None ;;
        layout <- hextet_layout parts skip_index ;;
        let '(parts_hi, parts_lo, parts_skipped) := layout in
        except_ValueError
          (ip_int <- parse_hextets 0 (firstn (Z.to_nat parts_hi) parts) ;;
           parse_hextets (Z.shiftl ip_int (16 * parts_skipped))
             (skipn (List.length parts - Z.to_nat parts_lo) parts))
          (Raise AddressValueError).

Definition _split_scope_id (ip_str : string) : result (string * option string) :=
  let '(addr, sep, scope_id) := Py.partition "%" ip_str in
  if negb sep then Ok (addr, None)
  else if is_empty scope_id || Py.contains "%" scope_id
  then Raise AddressValueError
  else Ok (addr, Some scope_id).

Definition IPv6Address (address : string) : result IPAddress :=
  if Py.contains "/" address then Raise AddressValueError
  else
    p <- _split_scope_id address ;;
    let '(addr_str, scope_id) := p in
    ip <- v6_ip_int_from_string addr_str ;;
    Ok (mkAddress V6 ip scope_id).

Definition v6_make_netmask (arg : mask_arg) : result Z :=
  match arg with
  | MaskInt prefixlen =>
      if negb ((0 <=? prefixlen) && (prefixlen <=? _max_prefixlen V6))
      then _report_invalid_netmask
      else Ok prefixlen
  | MaskStr s => _prefix_from_prefix_string V6 s
  end.

Definition IPv6Network (address : string) (strict : bool) : result IPNetwork :=
  p <- _split_addr_prefix V6 address ;;
  let '(addr, mask) := p in
  network_address <- IPv6Address addr ;;
  prefixlen <- v6_make_netmask mask ;;
  check_host_bits network_address prefixlen strict.

(** *** [ip_network] *)

Definition ip_network_strict (address : string) (strict : bool)
  : result IPNetwork :=
  except_Address_or_Netmask (IPv4Network address strict)
    (except_Address_or_Netmask (IPv6Network address strict)
       (Raise ValueError)).

(** [ip_network(address)], with the default [strict=True]. *)
Definition ip_network (address : string) : result IPNetwork :=
  ip_network_strict address true.

(** *** Networks: masks, ordering of addresses, containment *)

Definition netmask (n : IPNetwork) : Z :=
  _ip_int_from_prefix (net_family n) (_prefixlen n).

Definition hostmask (n : IPNetwork) : Z :=
  Z.lxor (netmask n) (_ALL_ONES (net_family n)).

Definition broadcast_address (n : IPNetwork) : IPAddress :=
  mkAddress (net_family n) (Z.lor (_ip (network_address n)) (hostmask n)) None.

Definition scope_eqb (s t : option string) : bool :=
  match s, t with
  | None, None => true
  | Some x, Some y => String.eqb x y
  | _, _ => false
  end.

(** [_BaseAddress.__eq__], refined by [IPv6Address.__eq__], which also
    compares the scope. *)
Definition address_eq (a b : IPAddress) : bool :=
  (_ip a =? _ip b) && family_eqb (addr_family a) (addr_family b)
  && scope_eqb (_scope_id a) (_scope_id b).

(** [_BaseAddress.__lt__]. *)
Definition address_lt (a b : IPAddress) : result bool :=
  if negb (family_eqb (addr_family a) (addr_family b)) then Raise TypeError
  else if negb (_ip a =? _ip b) then Ok (_ip a <? _ip b)
  else Ok false.

(** [a <= b] as [functools.total_ordering] derives it: [a < b or a == b]. *)
Definition address_le (a b : IPAddress) : result bool :=
  op_result <- address_lt a b ;;
  Ok (op_result || address_eq a b).

(** [a >= b] as [functools.total_ordering] derives it: [not a < b]. *)
Definition address_ge (a b : IPAddress) : result bool :=
  op_result <- address_lt a b ;;
  Ok (negb op_result).

Definition _is_subnet_of (a b : IPNetwork) : result bool :=
  if negb (version a =? version b) then Raise TypeError
  else
    lower_ok <- address_le (network_address b) (network_address a) ;;
    if lower_ok
    then address_ge (broadcast_address b) (broadcast_address a)
    else Ok false.

Definition subnet_of (self other : IPNetwork) : result bool :=
  _is_subnet_of self other.

End ipaddress.

(** ** kartograf/bogon.py *)

Module bogon.

Import ipaddress.

Local Open Scope string_scope.

(** Special-purpose IPv4 ranges. *)
Definition SPECIAL_IPV4 : list string := [
  "0.0.0.0/8";
  "0.0.0.0/32";
  "10.0.0.0/8";
  "100.64.0.0/10";
  "127.0.0.0/8";
  "169.254.0.0/16";
  "172.16.0.0/12";
  "192.0.0.0/24";
  "192.0.0.0/29";
  "192.0.0.8/32";
  "192.0.0.9/32";
  "192.0.0.10/32";
  "192.0.0.170/32";
  "192.0.0.171/32";
  "192.0.2.0/24";
  "192.31.196.0/24";
  "192.52.193.0/24";
  "192.168.0.0/16";
  "192.175.48.0/24";
  "198.18.0.0/15";
  "198.51.100.0/24";
  "203.0.113.0/24";
  "224.0.0.0/4";
  "240.0.0.0/4";
  "255.255.255.255/32"
].

(** Special-purpose IPv6 ranges. *)
Definition SPECIAL_IPV6 : list string := [
  "::/8";
  "64:ff9b::/96";
  "64:ff9b:1::/48";
  "100::/64";
  "2001::/23";
  "2001::/32";
  "2001:1::1/128";
  "2001:1::2/128";
  "2001:2::/48";
  "2001:3::/32";
  "2001:4:112::/48";
  "2001:20::/28";
  "2001:30::/28";
  "2001:db8::/32";
  "2002::/16";
  "2620:4f:8000::/48";
  "fc00::/7";
  "fe80::/10";
  "ff00::/8"
].

(** [{ipaddress.ip_network(prefix) for prefix in prefixes}], evaluated when
    the module is imported: the first literal that does not parse aborts
    the import. The elements are kept in the order of the list. *)
Fixpoint load_networks (prefixes : list string) : result (list IPNetwork) :=
  match prefixes with
  | [] => Ok []
  | prefix :: rest =>
      net <- ip_network prefix ;;
      nets <- load_networks rest ;;
      Ok (net :: nets)
  end.

Definition networks_or_empty (r : result (list IPNetwork)) : list IPNetwork :=
  match r with
  | Ok nets => nets
  | Raise _ => []
  end.

(** Sets of networks. *)
Definition SPECIAL_IPV4_NETWORKS : list IPNetwork :=
  Eval vm_compute in networks_or_empty (load_networks SPECIAL_IPV4).

Definition SPECIAL_IPV6_NETWORKS : list IPNetwork :=
  Eval vm_compute in networks_or_empty (load_networks SPECIAL_IPV6).

(** [any(network.subnet_of(special_net) for special_net in networks)]:
    stops at the first [True], and at the first exception. *)
Fixpoint any_subnet_of (network : IPNetwork) (networks : list IPNetwork)
  : result bool :=
  match networks with
  | [] => Ok false
  | special_net :: rest =>
      b <- subnet_of network special_net ;;
      if b then Ok true else any_subnet_of network rest
  end.

Definition is_bogon_pfx (prefix : string) : result bool :=
  network <- ip_network prefix ;;
  let networks :=
    if (version network =? 4)%Z then SPECIAL_IPV4_NETWORKS
    else SPECIAL_IPV6_NETWORKS in
  any_subnet_of network networks.

Local Close Scope string_scope.

(** The argument [asn_raw]: an [int] or a [str]. *)
Inductive asn_raw : Type :=
| AsnInt (n : Z)
| AsnStr (s : string).

Definition extract_asn (raw : asn_raw) : result Z :=
  match raw with
  | AsnInt n => Ok n
  | AsnStr s => Py.int (Py.strip (Py.replace "as" "" (Py.lower s))) Py.Base10
  end.

Definition reserved_asns : list Z := [
  0;
  112;
  23456;
  65535;
  4294967295
].

Definition reserved_asn_ranges : list (Z * Z) := [
  (64496, 64511);
  (64512, 65534);
  (65536, 65551);
  (65552, 131071);
  (4200000000, 4294967294)
].

Definition is_bogon_asn (raw : asn_raw) : result bool :=
  asn <- extract_asn raw ;;
  if existsb (Z.eqb asn) reserved_asns then Ok true
  else if existsb (fun r => (fst r <=? asn) && (asn <=? snd r))
            reserved_asn_ranges
  then Ok true
  else Ok false.

(** The default of the parameter [max_asn_encoding]. *)
Definition default_max_asn_encoding : Z := 33521664.

Definition is_out_of_encoding_range (raw : asn_raw) (max_asn_encoding : Z)
  : result bool :=
  asn <- extract_asn raw ;;
  if max_asn_encoding <? asn then Ok true
  else Ok false.

End bogon.

(** ** More of the Python runtime: [str] of an [int] and [pathlib]

    What [kartograf/context.py] needs beyond the built-ins above, as in
    CPython 3.11 on a POSIX system. *)

Module PyMore.

Definition is_empty (s : string) : bool :=
  match s with
  | EmptyString => true
  | _ => false
  end.

Definition digit_char (d : Z) : ascii := ascii_of_N (Z.to_N (d + 48)).

Fixpoint digits_aux (fuel : nat) (n : Z) (acc : string) : string :=
  match fuel with
  | O => acc
  | S fuel' =>
      let acc' := String (digit_char (n mod 10)) acc in
      if n / 10 =? 0 then acc' else digits_aux fuel' (n / 10) acc'
  end.

(** The decimal digits of a non-negative integer; it has no more decimal
    digits than bits. *)
Definition digits (n : Z) : string :=
  digits_aux (S (Z.to_nat (Z.log2 n))) n EmptyString.

(** [str(n)] for an [int]: refused beyond the limit of 4300 digits. *)
Definition str_int (n : Z) : result string :=
  let ds := digits (Z.abs n) in
  if Nat.ltb Py.int_max_str_digits (String.length ds) then Raise ValueError
  else Ok (if n <? 0 then String "-" ds else ds).

(** [sep.join(parts)]. *)
Fixpoint join (sep : string) (parts : list string) : string :=
  match parts with
  | [] => EmptyString
  | [p] => p
  | p :: rest => (p ++ sep ++ join sep rest)%string
  end.

(** [s.endswith('/')]. *)
Fixpoint endswith_slash (s : string) : bool :=
  match s with
  | EmptyString => false
  | String c EmptyString => Ascii.eqb c "/"
  | String _ s' => endswith_slash s'
  end.

End PyMore.

(** [pathlib.PurePosixPath]: the drive is always empty, so a path is its
    root and its list of parts, the root being the first part when there is
    one. *)
Module pathlib.

Import PyMore.

Record Path : Type := mkPath {
  _root : string;
  _parts : list string
}.

(** [part.lstrip('/')]. *)
Fixpoint lstrip_sep (part : string) : string :=
  match part with
  | EmptyString => EmptyString
  | String c rest => if Ascii.eqb c "/" then lstrip_sep rest else part
  end.

(** [_PosixFlavour.splitroot]: the root and the rest of a part. *)
Definition splitroot (part : string) : string * string :=
  match part with
  | String "/" _ =>
      let stripped_part := lstrip_sep part in
      if (String.length part - String.length stripped_part =? 2)%nat
      then ("//"%string, stripped_part)
      else ("/"%string, stripped_part)
  | _ => (EmptyString, part)
  end.

(** [x and x != '.']. *)
Definition kept (x : string) : bool :=
  negb (is_empty x) && negb (String.eqb x ".").

(** What one part adds to [parsed], in the order of the [append] calls. *)
Definition appended (rel : string) : list string :=
  if Py.contains "/" rel then filter kept (rev (Py.split "/" rel))
  else if kept rel then [rel] else [].

(** The loop of [parse_parts] over the reversed arguments; it stops at the
    first part that has a root. *)
Fixpoint parse_loop (it : list string) (parsed : list string)
  : string * list string :=
  match it with
  | [] => (EmptyString, parsed)
  | part :: it' =>
      if is_empty part then parse_loop it' parsed
      else
        let '(root, rel) := splitroot part in
        let parsed := parsed ++ appended rel in
        if negb (is_empty root) then (root, parsed)
        else parse_loop it' parsed
  end.

Definition parse_parts (parts : list string) : Path :=
  let '(root, parsed) := parse_loop (rev parts) [] in
  let parsed := if negb (is_empty root) then parsed ++ [root] else parsed in
  mkPath root (rev parsed).

(** [Path(s)]. *)
Definition of_str (s : string) : Path := parse_parts [s].

(** [self / key] for a string [key]: [_make_child], [join_parsed_parts]. *)
Definition truediv (self : Path) (key : string) : Path :=
  let other := parse_parts [key] in
  if negb (is_empty (_root other)) then other
  else mkPath (_root self) (_parts self ++ _parts other).

(** [key / self] for a string [key]: [__rtruediv__], which parses [key]
    followed by the parts of [self]. *)
Definition rtruediv (key : string) (self : Path) : Path :=
  parse_parts (key :: _parts self).

(** [_make_child_relpath], used by [iterdir]. *)
Definition _make_child_relpath (self : Path) (part : string) : Path :=
  mkPath (_root self) (_parts self ++ [part]).

(** [str(self)]. *)
Definition str (self : Path) : string :=
  let s := if negb (is_empty (_root self))
           then (_root self ++ join "/" (tl (_parts self)))%string
           else join "/" (_parts self) in
  if is_empty s then "."%string else s.

(** [self.name]. *)
Definition name (self : Path) : string :=
  if (List.length (_parts self)
      =? (if negb (is_empty (_root self)) then 1 else 0))%nat
  then EmptyString
  else last (_parts self) EmptyString.

End pathlib.

(** ** kartograf/context.py

    [Context.__init__] talks to its environment: the clock, the working
    directory and the file system. The environment is a parameter: every
    call to it is recorded as an event, and its answer may depend on the
    events so far. The arguments are those of the command line parser:
    [wait], [epoch] and [reproduce] are strings or [None], the flags are
    booleans. *)

Module context.

Import PyMore.

(** What a call can end with, besides a value. *)
Inductive failure : Type :=
| Builtin (e : exn)
| External (class_name : string)
| SystemExit.

Inductive outcome (A : Type) : Type :=
| Done (a : A)
| Failed (f : failure).

Arguments Done {A} a.
Arguments Failed {A} f.

Inductive event : Type :=
| Time
| Getcwd
| Listdir (path : string)
| IsDir (path : string)
| Exists (path : string)
| Mkdir (path : string)
| Print (text : string).

(** The environment; [mkdir] is [Path.mkdir(parents=True)]. A [datetime] is
    kept as the timestamp it was made from; [utcfromtimestamp] decides
    which timestamps it refuses. *)
Record Env : Type := mkEnv {
  time_time : list event -> Z;
  getcwd : list event -> outcome string;
  listdir : list event -> string -> outcome (list string);
  is_dir : list event -> string -> outcome bool;
  exists_ : list event -> string -> outcome bool;
  mkdir : list event -> string -> outcome unit;
  utcfromtimestamp : Z -> outcome Z
}.

(** A computation: from the events so far to the events after it and its
    outcome. *)
Definition M (A : Type) : Type := Env -> list event -> list event * outcome A.

Definition ret {A : Type} (a : A) : M A := fun _ h => (h, Done a).

Definition fail {A : Type} (f : failure) : M A := fun _ h => (h, Failed f).

Definition mbind {A B : Type} (m : M A) (k : A -> M B) : M B :=
  fun env h =>
    match m env h with
    | (h', Done a) => k a env h'
    | (h', Failed f) => (h', Failed f)
    end.

Notation "x <-- m ;; k" := (mbind m (fun x => k))
  (at level 61, m at next level, right associativity).

(** A call to the environment: recorded, then answered from the events
    before it. *)
Definition call {A : Type} (e : event) (answer : Env -> list event -> outcome A)
  : M A :=
  fun env h => (h ++ [e], answer env h).

Definition lift {A : Type} (r : result A) : M A :=
  match r with
  | Ok a => ret a
  | Raise e => fail (Builtin e)
  end.

Definition lift_outcome {A : Type} (o : Env -> outcome A) : M A :=
  fun env h => (h, o env).

(** The [args] object. *)
Module Namespace.
Record t : Type := mk {
  wait : option string;
  epoch : option string;
  reproduce : option string;
  irr : bool;
  routeviews : bool;
  max_encode : Z;
  debug : bool
}.
End Namespace.

Record Context : Type := mkContext {
  args : Namespace.t;
  epoch : string;
  reproduce : bool;
  epoch_dir : string;
  epoch_datetime : Z;
  data_dir : string;
  data_dir_irr : string;
  data_dir_rpki_cache : string;
  data_dir_rpki_tals : string;
  data_dir_collectors : string;
  out_dir : string;
  out_dir_irr : string;
  out_dir_rpki : string;
  out_dir_collectors : string;
  final_result_file : string;
  max_encode : Z;
  debug_log : string
}.

(** The truth value of a string or [None]. *)
Definition truthy (x : option string) : bool :=
  match x with
  | Some s => negb (is_empty s)
  | None => false
  end.

(** [int(x)] for a string or [None]. *)
Definition int_of (x : option string) : result Z :=
  match x with
  | Some s => Py.int s Py.Base10
  | None => Raise TypeError
  end.

(** The value of an attribute that holds a string. *)
Definition the (x : option string) : string :=
  match x with
  | Some s => s
  | None => EmptyString
  end.

(** The path [Path.is_dir] is asked about for the entry [entry] of the
    directory [reproduce]: [self.args.reproduce / folder]. *)
Definition full_path (reproduce entry : string) : pathlib.Path :=
  pathlib.rtruediv reproduce
    (pathlib._make_child_relpath (pathlib.of_str reproduce) entry).

(** The loop over [Path.iterdir(Path(self.args.reproduce))]. *)
Fixpoint source_folders_loop (reproduce : string) (entries : list string)
  (source_folders : list string) : M (list string) :=
  match entries with
  | [] => ret source_folders
  | entry :: rest =>
      let folder :=
        pathlib._make_child_relpath (pathlib.of_str reproduce) entry in
      let p := pathlib.str (full_path reproduce entry) in
      d <-- call (IsDir p) (fun env h => is_dir env h p) ;;
      source_folders_loop reproduce rest
        (if d then source_folders ++ [pathlib.name folder]
         else source_folders)
  end.

(** [x in source_folders]. *)
Definition member (x : string) (l : list string) : bool :=
  existsb (String.eqb x) l.

Definition _set_epoch_dirs (reproduce : bool) (epoch : string)
  (args_epoch : option string) : M (string * Z) :=
  if reproduce && negb (is_empty epoch) then
    t <-- lift (int_of args_epoch) ;;
    repro_epoch <-- lift_outcome (fun env => utcfromtimestamp env t) ;;
    ret (String "r" epoch, repro_epoch)
  else
    t <-- lift (Py.int epoch Py.Base10) ;;
    d <-- lift_outcome (fun env => utcfromtimestamp env t) ;;
    ret (epoch, d).

Definition already_exists_message : string :=
  "Not so fast, a folder with that epoch already exists.".

(** [Path(p).mkdir(parents=True)]. *)
Definition make (p : string) : M unit :=
  let q := pathlib.str (pathlib.of_str p) in
  call (Mkdir q) (fun env h => mkdir env h q).

Definition when (b : bool) (m : M unit) : M unit :=
  if b then m else ret tt.

(** [str(Path(base) / a)] and [str(Path(base) / a / b)]. *)
Definition sub (base a : string) : string :=
  pathlib.str (pathlib.truediv (pathlib.of_str base) a).

Definition sub2 (base a b : string) : string :=
  pathlib.str (pathlib.truediv (pathlib.truediv (pathlib.of_str base) a) b).

Definition __init__ (a : Namespace.t) : M Context :=
  epoch <-- (if truthy (Namespace.wait a) then ret (the (Namespace.wait a))
             else if truthy (Namespace.epoch a)
             then ret (the (Namespace.epoch a))
             else
               t <-- call Time (fun env h => Done (time_time env h)) ;;
               lift (str_int t)) ;;
  let reproduce :=
    match Namespace.reproduce a with
    | Some _ => true
    | None => false
    end in
  a <-- match Namespace.reproduce a with
        | Some r =>
            let dir := pathlib.str (pathlib.of_str r) in
            items <-- call (Listdir dir) (fun env h => listdir env h dir) ;;
            source_folders <-- source_folders_loop r items [] ;;
            ret (Namespace.mk (Namespace.wait a) (Namespace.epoch a)
                   (Namespace.reproduce a)
                   (member "irr" source_folders)
                   (member "collectors" source_folders)
                   (Namespace.max_encode a) (Namespace.debug a))
        | None => ret a
        end ;;
  dirs <-- _set_epoch_dirs reproduce epoch (Namespace.epoch a) ;;
  let '(epoch_dir, epoch_datetime) := dirs in
  cwd <-- call Getcwd (fun env h => getcwd env h) ;;
  let a :=
    match Namespace.reproduce a with
    | Some r =>
        if negb (endswith_slash r)
        then Namespace.mk (Namespace.wait a) (Namespace.epoch a)
               (Some (r ++ "/")%string) (Namespace.irr a)
               (Namespace.routeviews a) (Namespace.max_encode a)
               (Namespace.debug a)
        else a
    | None => a
    end in
  let data_dir :=
    match Namespace.reproduce a with
    | Some r => r
    | None => sub2 cwd "data" epoch_dir
    end in
  let probe := pathlib.str (pathlib.of_str data_dir) in
  found <-- call (Exists probe) (fun env h => exists_ env h probe) ;;
  _ <-- (if found && negb reproduce
         then _ <-- call (Print already_exists_message)
                      (fun _ _ => Done tt) ;;
              fail SystemExit
         else ret tt) ;;
  let data_dir_irr := sub data_dir "irr" in
  let data_dir_rpki_cache := sub2 data_dir "rpki" "cache" in
  let data_dir_rpki_tals := sub2 data_dir "rpki" "tals" in
  let data_dir_collectors := sub data_dir "collectors" in
  let out_dir := sub2 cwd "out" epoch_dir in
  let out_dir_irr := sub out_dir "irr" in
  let out_dir_rpki := sub out_dir "rpki" in
  let out_dir_collectors := sub out_dir "collectors" in
  _ <-- (if negb reproduce then
           _ <-- make data_dir_rpki_cache ;;
           _ <-- make data_dir_rpki_tals ;;
           _ <-- when (Namespace.irr a) (make data_dir_irr) ;;
           when (Namespace.routeviews a) (make data_dir_collectors)
         else ret tt) ;;
  _ <-- make out_dir_rpki ;;
  _ <-- when (Namespace.irr a) (make out_dir_irr) ;;
  _ <-- when (Namespace.routeviews a) (make out_dir_collectors) ;;
  ret (mkContext a epoch reproduce epoch_dir epoch_datetime
         data_dir data_dir_irr data_dir_rpki_cache data_dir_rpki_tals
         data_dir_collectors out_dir out_dir_irr out_dir_rpki
         out_dir_collectors (sub out_dir "final_result.txt")
         (Namespace.max_encode a)
         (if Namespace.debug a then sub out_dir "debug.log"
          else EmptyString)).

End context.

Import ipaddress bogon.

(** * Vocabulary of the properties *)

(** The classifier on an integer, as one boolean expression. *)
Definition reserved (asn : Z) : bool :=
  existsb (Z.eqb asn) reserved_asns
  || existsb (fun r => (fst r <=? asn) && (asn <=? snd r)) reserved_asn_ranges.

(** The characters of a string satisfy [p]. *)
Fixpoint all_chars (p : ascii -> bool) (s : string) : bool :=
  match s with
  | EmptyString => true
  | String c s' => p c && all_chars p s'
  end.

(** A character that [lower] leaves alone and that is not the letter a. *)
Definition plain (c : ascii) : bool :=
  Ascii.eqb (Py.lower_char c) c && negb (Ascii.eqb c "a").

(** The value of a string of decimal digits, most significant first. *)
Fixpoint decimal_from (acc : Z) (ds : string) : Z :=
  match ds with
  | EmptyString => acc
  | String c ds' => decimal_from (acc * 10 + (Z.of_N (Py.ord c) - 48)) ds'
  end.

Definition decimal_value (ds : string) : Z := decimal_from 0 ds.

(** A marker: the letters a and s, each in either case, or nothing. *)
Definition is_marker (m : string) : bool :=
  String.eqb (Py.lower m) "as" || String.eqb m "".

(** A literal made of groups of digits, each behind a marker. *)
Fixpoint with_markers (chunks : list (string * string)) : string :=
  match chunks with
  | [] => EmptyString
  | (m, ds) :: rest => (m ++ ds ++ with_markers rest)%string
  end.

(** The digits of such a literal, markers left out. *)
Fixpoint digits_of (chunks : list (string * string)) : string :=
  match chunks with
  | [] => EmptyString
  | (_, ds) :: rest => (ds ++ digits_of rest)%string
  end.

(** Every group is a marker followed by decimal digits. *)
Definition well_marked (chunks : list (string * string)) : bool :=
  forallb (fun p => is_marker (fst p) && Py.all_digits (snd p)) chunks.



(** The number of bits of an address of family [f]. *)
Definition width (f : family) : Z := _max_prefixlen f.

(** Well-formed networks: what [ip_network] builds. *)
Definition wf_network (n : IPNetwork) : Prop :=
  0 <= _prefixlen n <= width (net_family n)
  /\ Z.land (_ip (network_address n)) (netmask n) = _ip (network_address n)
  /\ (net_family n = V4 -> _scope_id (network_address n) = None).

(** The same as a test that computes. *)
Definition wf_networkb (n : IPNetwork) : bool :=
  (0 <=? _prefixlen n) && (_prefixlen n <=? width (net_family n))
  && (Z.land (_ip (network_address n)) (netmask n) =? _ip (network_address n))
  && match net_family n, _scope_id (network_address n) with
     | V4, Some _ => false
     | _, _ => true
     end.

(** The number of host bits. *)
Definition host_bits (n : IPNetwork) : Z := width (net_family n) - _prefixlen n.

(** The integers of the first and of the last address of a network. *)
Definition first_ip (n : IPNetwork) : Z := _ip (network_address n).

Definition last_ip (n : IPNetwork) : Z := _ip (broadcast_address n).

(** [ip in n], the test of [_BaseNetwork.__contains__] on the integer of an
    address of the family of [n]. *)
Definition in_network (ip : Z) (n : IPNetwork) : Prop :=
  0 <= ip <= _ALL_ONES (net_family n)
  /\ Z.land ip (netmask n) = first_ip n.

(** Every address of [a] is an address of [b]. *)
Definition covers (b a : IPNetwork) : Prop :=
  forall ip : Z, in_network ip a -> in_network ip b.

(** The containment test as one boolean expression. *)
Definition is_subnetb (a b : IPNetwork) : bool :=
  ((first_ip b <? first_ip a)
   || (first_ip b =? first_ip a)
      && scope_eqb (_scope_id (network_address b)) (_scope_id (network_address a)))
  && negb (last_ip b <? last_ip a).

(** The call raises nothing but [ValueError] and its subclasses. *)
Definition only_ValueError {A : Type} (r : result A) : Prop :=
  forall e : exn, r = Raise e -> isinstance_ValueError e = true.

(** The table [is_bogon_pfx] consults for a network of family [f]. *)
Definition registry (f : family) : list IPNetwork :=
  match f with
  | V4 => SPECIAL_IPV4_NETWORKS
  | V6 => SPECIAL_IPV6_NETWORKS
  end.

(** What holds of every entry of the table of family [f]. *)
Definition registry_entry_ok (f : family) (sp : IPNetwork) : bool :=
  family_eqb (net_family sp) f && wf_networkb sp
  && match _scope_id (network_address sp) with
     | None => true
     | Some _ => false
     end.

(** The private-use block 10.0.0.0/8. *)
Definition ten_slash_8 : IPNetwork := mkNetwork (mkAddress V4 167772160 None) 8.

(** [a] lies inside [b] and is another network. *)
Definition strictly_contained (a b : IPNetwork) : Prop :=
  covers b a /\ a <> b.


(** *** Vocabulary for [Context] *)

(** Running the constructor from an empty history: the events and the
    outcome. *)
Definition run (env : context.Env) (a : context.Namespace.t)
  : list context.event * context.outcome context.Context :=
  context.__init__ a env [].

(** A computation, whatever the history, only adds events that satisfy [P]
    and ends with an outcome that satisfies [Q]. *)
Definition yields {A : Type} (env : context.Env) (P : context.event -> Prop)
  (Q : context.outcome A -> Prop) (m : context.M A) : Prop :=
  forall h : list context.event,
  exists new : list context.event,
    fst (m env h) = h ++ new /\ Forall P new /\ Q (snd (m env h)).

(** The outcome is not a value. *)
Definition not_done {A : Type} (o : context.outcome A) : Prop :=
  forall a : A, o <> context.Done a.

(** An event that only reads the environment. *)
Definition reads (e : context.event) : Prop :=
  match e with
  | context.Mkdir _ => False
  | context.Print _ => False
  | _ => True
  end.

(** An event that creates no directory. *)
Definition creates_nothing (e : context.event) : Prop :=
  match e with
  | context.Mkdir _ => False
  | _ => True
  end.

(** The arguments with other values for the two source flags. *)
Definition with_flags (a : context.Namespace.t) (irr routeviews : bool)
  : context.Namespace.t :=
  context.Namespace.mk (context.Namespace.wait a) (context.Namespace.epoch a)
    (context.Namespace.reproduce a) irr routeviews
    (context.Namespace.max_encode a) (context.Namespace.debug a).

(** A name as [os.listdir] returns it: not empty, not ".", without
    slash. *)
Definition entry_name (x : string) : bool :=
  pathlib.kept x && negb (Py.contains "/" x).

(** The path a directory is created at: [Path(p)] as the system sees it. *)
Definition made (p : string) : string := pathlib.str (pathlib.of_str p).


(** The directories created, in order. *)
Fixpoint created (trace : list context.event) : list string :=
  match trace with
  | [] => []
  | context.Mkdir p :: rest => p :: created rest
  | _ :: rest => created rest
  end.

(** A path as the parser makes it: the root is empty, one slash or two, and
    the parts are the root, if there is one, and then names. *)
Definition well_formed (p : pathlib.Path) : Prop :=
  (pathlib._root p = EmptyString \/ pathlib._root p = "/"%string
   \/ pathlib._root p = "//"%string)
  /\ exists cs,
       forallb entry_name cs = true
       /\ pathlib._parts p =
          (if negb (PyMore.is_empty (pathlib._root p))
           then [pathlib._root p] else []) ++ cs.


(** A computation that, whatever the history, has created the directories
    [D] relates to its value when it ends with one. *)
Definition creates {A : Type} (env : context.Env)
  (D : A -> list string -> Prop) (m : context.M A) : Prop :=
  forall h : list context.event,
  exists new : list context.event,
    fst (m env h) = h ++ new
    /\ forall a, snd (m env h) = context.Done a -> D a (created new).

(** The epoch of a run, as the constructor chooses it at its start: [wait]
    before [epoch] before the clock. *)
Definition run_epoch (env : context.Env) (a : context.Namespace.t)
  : result string :=
  if context.truthy (context.Namespace.wait a)
  then Ok (context.the (context.Namespace.wait a))
  else if context.truthy (context.Namespace.epoch a)
  then Ok (context.the (context.Namespace.epoch a))
  else PyMore.str_int (context.time_time env []).

(** * Properties *)

(** ** The ASN classifier *)

Section AsnClassifier.

Lemma bind_Ok {A B : Type} (r : result A) (k : A -> result B) (a : A) :
  r = Ok a -> bind r k = k a.
Proof. intros ->. reflexivity. Qed.

Lemma bind_Raise {A B : Type} (r : result A) (k : A -> result B) (e : exn) :
  r = Raise e -> bind r k = Raise e.
Proof. intros ->. reflexivity. Qed.

Lemma is_bogon_asn_of_extract (raw : asn_raw) (n : Z) :
  extract_asn raw = Ok n -> is_bogon_asn raw = Ok (reserved n).
Proof.
  intros H. unfold is_bogon_asn, reserved. rewrite (bind_Ok _ _ n H).
  destruct (existsb (Z.eqb n) reserved_asns); [reflexivity|].
  destruct (existsb _ reserved_asn_ranges); reflexivity.
Qed.

Lemma is_out_of_encoding_range_of_extract (raw : asn_raw) (n ceiling : Z) :
  extract_asn raw = Ok n ->
  is_out_of_encoding_range raw ceiling = Ok (ceiling <? n).
Proof.
  intros H. unfold is_out_of_encoding_range. rewrite (bind_Ok _ _ n H).
  destruct (ceiling <? n); reflexivity.
Qed.

Lemma reserved_unfold (n : Z) :
  reserved n =
  ((n =? 0) || (n =? 112) || (n =? 23456) || (n =? 65535) || (n =? 4294967295)
   || ((64496 <=? n) && (n <=? 64511)) || ((64512 <=? n) && (n <=? 65534))
   || ((65536 <=? n) && (n <=? 65551)) || ((65552 <=? n) && (n <=? 131071))
   || ((4200000000 <=? n) && (n <=? 4294967294))).
Proof.
  unfold reserved, reserved_asns, reserved_asn_ranges, existsb, fst, snd.
  rewrite !orb_false_r, !orb_assoc. reflexivity.
Qed.

(** C2, as the code has it: 0, 65535 and 4294967295 are reserved values, and
    65001 is classified as a bogon too, because it lies in the private-use
    range 64512-65534. *)
Theorem is_bogon_asn_examples :
  is_bogon_asn (AsnInt 0) = Ok true
  /\ is_bogon_asn (AsnInt 65535) = Ok true
  /\ is_bogon_asn (AsnInt 4294967295) = Ok true
  /\ is_bogon_asn (AsnInt 65001) = Ok true
  /\ In (64512, 65534) reserved_asn_ranges.
Proof.
  repeat split; try reflexivity. simpl. tauto.
Qed.

(** C2 as stated fails: the classifier does not return false on 65001. *)
Lemma is_bogon_asn_65001_not_false :
  ~ (is_bogon_asn (AsnInt 0) = Ok true
     /\ is_bogon_asn (AsnInt 65535) = Ok true
     /\ is_bogon_asn (AsnInt 4294967295) = Ok true
     /\ is_bogon_asn (AsnInt 65001) = Ok false).
Proof.
  intros (_ & _ & _ & H). vm_compute in H. discriminate H.
Qed.

(** C7: the encoding-range test answers true exactly when the normalised
    ASN is strictly above the ceiling, whose default is 33521664; 33521665
    is out of range and 33521664 is not. *)
Theorem is_out_of_encoding_range_iff :
  (forall (raw : asn_raw) (ceiling n : Z),
      extract_asn raw = Ok n ->
      exists b : bool,
        is_out_of_encoding_range raw ceiling = Ok b
        /\ (b = true <-> ceiling < n))
  /\ default_max_asn_encoding = 33521664
  /\ is_out_of_encoding_range (AsnInt 33521665) default_max_asn_encoding = Ok true
  /\ is_out_of_encoding_range (AsnInt 33521664) default_max_asn_encoding = Ok false.
Proof.
  split; [|repeat split; reflexivity].
  intros raw ceiling n H. exists (ceiling <? n). split.
  - apply is_out_of_encoding_range_of_extract, H.
  - apply Z.ltb_lt.
Qed.

Lemma is_out_of_encoding_range_iff_witness :
  exists b : bool,
    is_out_of_encoding_range (AsnStr " as33521665 "%string) 33521664 = Ok b
    /\ (b = true <-> 33521664 < 33521665).
Proof.
  apply (proj1 is_out_of_encoding_range_iff (AsnStr " as33521665 "%string) 33521664
           33521665).
  vm_compute. reflexivity.
Defined.

(** C8: a literal and the integer it normalises to are classified alike by
    both predicates; "AS64500" and 64500 are both bogons. *)
Theorem normalization_is_shared :
  (forall (s : string) (n ceiling : Z),
      extract_asn (AsnStr s) = Ok n ->
      is_bogon_asn (AsnStr s) = is_bogon_asn (AsnInt n)
      /\ is_out_of_encoding_range (AsnStr s) ceiling
         = is_out_of_encoding_range (AsnInt n) ceiling)
  /\ is_bogon_asn (AsnStr "AS64500"%string) = is_bogon_asn (AsnInt 64500)
  /\ is_bogon_asn (AsnInt 64500) = Ok true.
Proof.
  split; [|split; reflexivity].
  intros s n ceiling H. split.
  - rewrite (is_bogon_asn_of_extract _ n H).
    symmetry. apply is_bogon_asn_of_extract. reflexivity.
  - rewrite (is_out_of_encoding_range_of_extract _ n ceiling H).
    symmetry. apply is_out_of_encoding_range_of_extract. reflexivity.
Qed.

Lemma normalization_is_shared_witness :
  is_bogon_asn (AsnStr "as13335"%string) = is_bogon_asn (AsnInt 13335)
  /\ is_out_of_encoding_range (AsnStr "as13335"%string) 33521664
     = is_out_of_encoding_range (AsnInt 13335) 33521664.
Proof.
  apply (proj1 normalization_is_shared "as13335"%string 13335 33521664).
  vm_compute. reflexivity.
Defined.

(** C9: the reserved values and ranges leave no gap between 64496 and
    131071: every integer of that interval is a bogon. *)
Theorem reserved_block_is_contiguous (n : Z) :
  64496 <= n <= 131071 -> is_bogon_asn (AsnInt n) = Ok true.
Proof.
  intros Hn.
  rewrite (is_bogon_asn_of_extract (AsnInt n) n eq_refl). f_equal.
  rewrite reserved_unfold.
  destruct (Z.eq_dec n 65535) as [->|Hne]; [reflexivity|].
  assert (H : 64496 <= n <= 64511 \/ 64512 <= n <= 65534
              \/ 65536 <= n <= 65551 \/ 65552 <= n <= 131071) by lia.
  destruct H as [H|[H|[H|H]]];
    destruct H as [Hlo%Z.leb_le Hhi%Z.leb_le]; rewrite Hlo, Hhi; simpl;
    rewrite ?orb_true_r; reflexivity.
Qed.

Lemma reserved_block_is_contiguous_witness :
  is_bogon_asn (AsnInt 65535) = Ok true.
Proof.
  apply (reserved_block_is_contiguous 65535). lia.
Defined.

(** C10: no 32-bit range check is made: an integer argument comes back
    unchanged whatever its value, and an integer below 0 or above
    4294967295 is classified as not a bogon, without any error. *)
Theorem no_range_validation :
  (forall n : Z, extract_asn (AsnInt n) = Ok n)
  /\ (forall n : Z,
        n < 0 \/ 4294967295 < n -> is_bogon_asn (AsnInt n) = Ok false)
  /\ is_bogon_asn (AsnInt 4294967296) = Ok false
  /\ is_bogon_asn (AsnInt (-1)) = Ok false.
Proof.
  split; [reflexivity|]. split; [|split; reflexivity].
  intros n Hn.
  rewrite (is_bogon_asn_of_extract (AsnInt n) n eq_refl). f_equal.
  rewrite reserved_unfold.
  repeat match goal with
         | |- context [?a =? ?b] => destruct (Z.eqb_spec a b); [lia|]
         | |- context [?a <=? ?b] => destruct (Z.leb_spec a b)
         end; simpl; try reflexivity; lia.
Qed.

Lemma no_range_validation_witness :
  is_bogon_asn (AsnInt 18446744073709551616) = Ok false.
Proof.
  apply (proj1 (proj2 no_range_validation) 18446744073709551616).
  right. lia.
Defined.

End AsnClassifier.

(** ** Normalisation of ASN literals *)

Section Normalisation.

Ltac by_ascii :=
  intros [[] [] [] [] [] [] [] []]; vm_compute;
  try reflexivity; try discriminate; auto.

Lemma all_digits_all_chars (s : string) :
  Py.all_digits s = all_chars Py.isdigit_char s.
Proof. induction s as [|c s IH]; simpl; congruence. Qed.

Lemma all_chars_app (p : ascii -> bool) (s t : string) :
  all_chars p (s ++ t) = all_chars p s && all_chars p t.
Proof.
  induction s as [|c s IH]; simpl; [reflexivity|].
  rewrite IH, andb_assoc. reflexivity.
Qed.

Lemma all_chars_impl (p q : ascii -> bool) (s : string) :
  (forall c, p c = true -> q c = true) ->
  all_chars p s = true -> all_chars q s = true.
Proof.
  intros Hpq. induction s as [|c s IH]; simpl; [reflexivity|].
  intros [Hc Hs]%andb_prop. rewrite (Hpq c Hc), (IH Hs). reflexivity.
Qed.

Lemma digit_is_plain : forall c, Py.isdigit_char c = true -> plain c = true.
Proof. by_ascii. Qed.

Lemma space_is_plain : forall c, Py.isspace c = true -> plain c = true.
Proof. by_ascii. Qed.

Lemma digit_not_space :
  forall c, Py.isdigit_char c = true -> Py.isspace c = false.
Proof. by_ascii. Qed.

Lemma lower_app (s t : string) :
  Py.lower (s ++ t) = (Py.lower s ++ Py.lower t)%string.
Proof.
  induction s as [|c s IH]; simpl; [reflexivity|]. rewrite IH. reflexivity.
Qed.

Lemma lower_plain (s : string) :
  all_chars plain s = true -> Py.lower s = s.
Proof.
  induction s as [|c s IH]; simpl; [reflexivity|].
  intros [Hc Hs]%andb_prop. rewrite (IH Hs).
  apply andb_prop in Hc as [Hc _]. apply Ascii.eqb_eq in Hc.
  rewrite Hc. reflexivity.
Qed.

Lemma replace_as_plain (s t : string) :
  all_chars plain s = true ->
  Py.replace_from "as" "" O (s ++ t)
  = (s ++ Py.replace_from "as" "" O t)%string.
Proof.
  induction s as [|c s IH]; simpl; [reflexivity|].
  intros [Hc Hs]%andb_prop.
  apply andb_prop in Hc as [_ Hc]. apply negb_true_iff in Hc.
  rewrite Hc. simpl. rewrite (IH Hs). reflexivity.
Qed.

Lemma replace_as_marker (t : string) :
  Py.replace_from "as" "" O ("as" ++ t) = Py.replace_from "as" "" O t.
Proof. reflexivity. Qed.

Lemma lstrip_spaces (w s : string) :
  all_chars Py.isspace w = true -> Py.lstrip (w ++ s) = Py.lstrip s.
Proof.
  induction w as [|c w IH]; simpl; [reflexivity|].
  intros [Hc Hw]%andb_prop. rewrite Hc. apply IH, Hw.
Qed.

Lemma lstrip_only_spaces (w : string) :
  all_chars Py.isspace w = true -> Py.lstrip w = EmptyString.
Proof.
  induction w as [|c w IH]; simpl; [reflexivity|].
  intros [Hc Hw]%andb_prop. rewrite Hc. apply IH, Hw.
Qed.

Lemma rstrip_spaces (w : string) :
  all_chars Py.isspace w = true -> Py.rstrip w = EmptyString.
Proof.
  induction w as [|c w IH]; simpl; [reflexivity|].
  intros [Hc Hw]%andb_prop. rewrite (IH Hw), Hc. reflexivity.
Qed.

Lemma rstrip_body (ds w : string) :
  all_chars (fun c => negb (Py.isspace c)) ds = true ->
  all_chars Py.isspace w = true ->
  Py.rstrip (ds ++ w) = ds.
Proof.
  intros Hds Hw. induction ds as [|c ds IH]; simpl.
  - apply rstrip_spaces, Hw.
  - simpl in Hds. apply andb_prop in Hds as [Hc Hds].
    rewrite (IH Hds). apply negb_true_iff in Hc. rewrite Hc.
    destruct ds; reflexivity.
Qed.

Lemma strip_padded (w1 ds w2 : string) :
  all_chars Py.isspace w1 = true ->
  all_chars (fun c => negb (Py.isspace c)) ds = true ->
  all_chars Py.isspace w2 = true ->
  Py.strip (w1 ++ ds ++ w2) = ds.
Proof.
  intros H1 Hds H2. unfold Py.strip. rewrite (lstrip_spaces _ _ H1).
  destruct ds as [|c ds].
  - simpl. rewrite (lstrip_only_spaces _ H2). reflexivity.
  - simpl in Hds |- *. apply andb_prop in Hds as [Hc Hds].
    apply negb_true_iff in Hc. rewrite Hc.
    change (String c (ds ++ w2)) with (String c ds ++ w2)%string.
    apply rstrip_body; [|exact H2]. simpl.
    rewrite Hc, Hds. reflexivity.
Qed.

Lemma digit_in_base10 :
  forall c, Py.isdigit_char c = true ->
            Py.digit_in Py.Base10 c = Some (Z.of_N (Py.ord c) - 48).
Proof. by_ascii. Qed.

Lemma scan_digits_decimal (ds : string) (acc : Z) (n : nat) :
  Py.all_digits ds = true ->
  Py.scan_digits Py.Base10 false acc n ds
  = Some (decimal_from acc ds, (n + String.length ds)%nat, EmptyString).
Proof.
  revert acc n. induction ds as [|c ds IH]; intros acc n; simpl.
  - intros _. rewrite Nat.add_0_r. reflexivity.
  - intros [Hc Hds]%andb_prop. rewrite (digit_in_base10 c Hc).
    rewrite (IH _ _ Hds). rewrite Nat.add_succ_r. reflexivity.
Qed.

Lemma transform_digits (ds : string) :
  Py.all_digits ds = true -> Py.transform_space_to_ascii ds = ds.
Proof.
  induction ds as [|c ds IH]; simpl; [reflexivity|].
  intros [Hc Hds]%andb_prop. rewrite (IH Hds).
  revert Hc. generalize ds. clear. intros ds. revert c.
  intros [[] [] [] [] [] [] [] []]; vm_compute; try discriminate; reflexivity.
Qed.

Lemma int_head_digit :
  forall c, Py.isdigit_char c = true ->
            Py.c_isspace c = false
            /\ negb (Ascii.eqb c "+") = true
            /\ negb (Ascii.eqb c "-") = true
            /\ negb (Ascii.eqb c "_") = true.
Proof. by_ascii. Qed.

(** [int] on a non-empty string of at most 4300 decimal digits. *)
Lemma int_of_digits (ds : string) :
  Py.isascii_isdigit ds = true ->
  (String.length ds <= Py.int_max_str_digits)%nat ->
  Py.int ds Py.Base10 = Ok (decimal_value ds).
Proof.
  intros Hds Hlen. destruct ds as [|c ds]; [discriminate Hds|].
  unfold Py.isascii_isdigit in Hds.
  unfold Py.int. rewrite (transform_digits _ Hds).
  pose proof Hds as Hds'. simpl in Hds'. apply andb_prop in Hds' as [Hc _].
  destruct (int_head_digit c Hc) as (Hsp & Hplus & Hminus & Hus).
  assert (Hskip : Py.skip_c_space (String c ds) = String c ds)
    by (simpl; rewrite Hsp; reflexivity).
  rewrite Hskip.
  assert (Hsign : Py.strip_sign (String c ds) = (1, String c ds)).
  { revert Hplus Hminus. clear. revert c.
    intros [[] [] [] [] [] [] [] []]; simpl; intros; try reflexivity;
      discriminate. }
  rewrite Hsign. cbv beta iota.
  assert (Hpre : Py.strip_base_prefix Py.Base10 (String c ds) = String c ds)
    by reflexivity.
  rewrite Hpre.
  assert (Hnus : Py.starts_with_underscore (String c ds) = false).
  { revert Hus. clear. revert c.
    intros [[] [] [] [] [] [] [] []]; simpl; intros; try reflexivity;
      discriminate. }
  rewrite Hnus. rewrite (scan_digits_decimal _ 0 0 Hds).
  unfold Py.over_digit_limit.
  replace (Nat.ltb Py.int_max_str_digits (0 + String.length (String c ds)))
    with false by (symmetry; apply Nat.ltb_ge; simpl; simpl in Hlen; lia).
  simpl Nat.add. cbv iota. simpl Py.skip_c_space. cbv iota.
  unfold decimal_value. f_equal. lia.
Qed.

Lemma append_assoc (s t u : string) :
  ((s ++ t) ++ u = s ++ (t ++ u))%string.
Proof. induction s as [|c s IH]; simpl; congruence. Qed.

Lemma append_empty_r (s : string) : (s ++ EmptyString)%string = s.
Proof. induction s as [|c s IH]; simpl; congruence. Qed.

Lemma replace_as_idle (s : string) :
  all_chars plain s = true -> Py.replace_from "as" "" O s = s.
Proof.
  intros H. rewrite <- (append_empty_r s) at 1.
  rewrite (replace_as_plain _ _ H). apply append_empty_r.
Qed.

Lemma digits_of_all_digits (chunks : list (string * string)) :
  well_marked chunks = true -> Py.all_digits (digits_of chunks) = true.
Proof.
  induction chunks as [|[m ds] chunks IH]; simpl; [reflexivity|].
  intros [Hh Ht]%andb_prop. apply andb_prop in Hh as [_ Hds].
  rewrite all_digits_all_chars, all_chars_app, <- !all_digits_all_chars.
  rewrite Hds, (IH Ht). reflexivity.
Qed.

(** Lower-casing and removing the markers leaves the digits. *)
Lemma remove_markers (chunks : list (string * string)) (w : string) :
  well_marked chunks = true ->
  all_chars plain w = true ->
  Py.replace "as" "" (Py.lower (with_markers chunks ++ w))
  = (digits_of chunks ++ w)%string.
Proof.
  intros Hc Hw. unfold Py.replace.
  induction chunks as [|[m ds] chunks IH].
  - simpl. rewrite (lower_plain _ Hw). apply replace_as_idle, Hw.
  - simpl in Hc. apply andb_prop in Hc as [Hh Ht].
    apply andb_prop in Hh as [Hm Hds]. simpl in Hm, Hds.
    assert (Hplain : all_chars plain ds = true).
    { rewrite all_digits_all_chars in Hds.
      exact (all_chars_impl _ _ _ digit_is_plain Hds). }
    simpl with_markers. simpl digits_of.
    rewrite !append_assoc, lower_app, lower_app, (lower_plain _ Hplain).
    unfold is_marker in Hm. apply orb_prop in Hm as [Hm|Hm].
    + apply String.eqb_eq in Hm. rewrite Hm, replace_as_marker.
      rewrite (replace_as_plain _ _ Hplain), (IH Ht). reflexivity.
    + apply String.eqb_eq in Hm. subst m. simpl.
      rewrite (replace_as_plain _ _ Hplain), (IH Ht). reflexivity.
Qed.

(** C5: an integer comes back unchanged; a string is lower-cased, loses
    every occurrence of "as" and its surrounding white space, and is read as
    a base-10 integer. For a literal made of groups of digits separated by
    markers ("as" in any case, at any place) inside white space, the result
    is the number the digits spell. *)
Theorem extract_asn_normalizes :
  (forall n : Z, extract_asn (AsnInt n) = Ok n)
  /\ (forall s : string,
        extract_asn (AsnStr s)
        = Py.int (Py.strip (Py.replace "as" "" (Py.lower s))) Py.Base10)
  /\ (forall (chunks : list (string * string)) (w1 w2 : string),
        well_marked chunks = true ->
        all_chars Py.isspace w1 = true ->
        all_chars Py.isspace w2 = true ->
        digits_of chunks <> EmptyString ->
        (String.length (digits_of chunks) <= 4300)%nat ->
        extract_asn (AsnStr (w1 ++ with_markers chunks ++ w2))
        = Ok (decimal_value (digits_of chunks)))
  /\ extract_asn (AsnStr "AS65000") = Ok 65000
  /\ extract_asn (AsnInt 65000) = Ok 65000.
Proof.
  split; [reflexivity|]. split; [reflexivity|].
  split; [|split; reflexivity].
  intros chunks w1 w2 Hc H1 H2 Hne Hlen. unfold extract_asn.
  assert (P1 : all_chars plain w1 = true)
    by exact (all_chars_impl _ _ _ space_is_plain H1).
  assert (P2 : all_chars plain w2 = true)
    by exact (all_chars_impl _ _ _ space_is_plain H2).
  rewrite lower_app, (lower_plain _ P1). unfold Py.replace.
  rewrite (replace_as_plain _ _ P1).
  change (Py.replace_from "as" "" 0 (Py.lower (with_markers chunks ++ w2)))
    with (Py.replace "as" "" (Py.lower (with_markers chunks ++ w2))).
  rewrite (remove_markers _ _ Hc P2).
  pose proof (digits_of_all_digits _ Hc) as Hd.
  rewrite strip_padded; trivial.
  - apply int_of_digits; [|exact Hlen].
    unfold Py.isascii_isdigit. destruct (digits_of chunks); [congruence|exact Hd].
  - rewrite all_digits_all_chars in Hd.
    refine (all_chars_impl _ _ _ _ Hd).
    intros c Hcd. rewrite (digit_not_space c Hcd). reflexivity.
Qed.

Lemma extract_asn_normalizes_witness :
  extract_asn (AsnStr " As65aS000 ") = Ok 65000.
Proof.
  apply (proj1 (proj2 (proj2 extract_asn_normalizes))
           [("As", "65"); ("aS", "000")]%string " "%string " "%string).
  - reflexivity.
  - reflexivity.
  - reflexivity.
  - simpl. discriminate.
  - simpl. lia.
Defined.

(** *** When [int] raises *)








(** Every error of [int] is a [ValueError]. *)
Lemma int_Raise_ValueError (s : string) (b : Py.base) (e : exn) :
  Py.int s b = Raise e -> e = ValueError.
Proof.
  unfold Py.int.
  destruct (Py.strip_sign _) as [sign s1].
  destruct (Py.starts_with_underscore _); [congruence|].
  destruct (Py.scan_digits _ _ _ _ _) as [[[v m] rest]|]; [|congruence].
  destruct (Py.over_digit_limit _ m); [congruence|].
  destruct m; [congruence|].
  destruct (Py.skip_c_space rest); congruence.
Qed.

End Normalisation.

(** ** Masks and address ranges *)

Section Masks.

Lemma forall_below (P : Z -> bool) (n : nat) :
  forallb P (map Z.of_nat (seq 0 n)) = true ->
  forall p : Z, 0 <= p < Z.of_nat n -> P p = true.
Proof.
  intros H p Hp. rewrite forallb_forall in H. apply H.
  rewrite <- (Z2Nat.id p) by lia. apply in_map, in_seq. lia.
Qed.

Lemma width_pos (f : family) : 0 < width f.
Proof. destruct f; reflexivity. Qed.

Lemma ALL_ONES_ones (f : family) : _ALL_ONES f = Z.ones (width f).
Proof. destruct f; reflexivity. Qed.

(** The netmask of a prefix length [p] has its [width - p] low bits clear. *)
Lemma netmask_value (f : family) (p : Z) :
  0 <= p <= width f ->
  _ip_int_from_prefix f p = 2 ^ width f - 2 ^ (width f - p).
Proof.
  intros Hp.
  assert (H : (_ip_int_from_prefix f p =? 2 ^ width f - 2 ^ (width f - p))
              = true); [|apply Z.eqb_eq, H].
  destruct f.
  - apply (forall_below
             (fun p => _ip_int_from_prefix V4 p =? 2 ^ 32 - 2 ^ (32 - p)) 33);
      [vm_compute; reflexivity|]. change (width V4) with 32 in Hp. lia.
  - apply (forall_below
             (fun p => _ip_int_from_prefix V6 p =? 2 ^ 128 - 2 ^ (128 - p)) 129);
      [vm_compute; reflexivity|]. change (width V6) with 128 in Hp. lia.
Qed.

Lemma pow2_le (k w : Z) : 0 <= k <= w -> 0 < 2 ^ k <= 2 ^ w.
Proof.
  intros H. split; [apply Z.pow_pos_nonneg; lia|].
  apply Z.pow_le_mono_r; lia.
Qed.

Lemma pow2_split (k w : Z) : 0 <= k <= w -> 2 ^ w = 2 ^ k * 2 ^ (w - k).
Proof.
  intros H. rewrite <- Z.pow_add_r by lia. f_equal. lia.
Qed.

(** Masking with a netmask clears the low [k] bits. *)
Lemma land_high_mask (x w k : Z) :
  0 <= k <= w -> 0 <= x < 2 ^ w ->
  Z.land x (2 ^ w - 2 ^ k) = x - x mod 2 ^ k.
Proof.
  intros Hk Hx. pose proof (pow2_le k w Hk) as Hpow.
  assert (Hmask : 2 ^ w - 2 ^ k = Z.land (Z.lnot (Z.ones k)) (Z.ones w)).
  { rewrite Z.land_ones by lia.
    replace (Z.lnot (Z.ones k)) with (- 2 ^ k)
      by (unfold Z.lnot; rewrite Z.ones_equiv; unfold Z.pred; lia).
    replace (- 2 ^ k) with (2 ^ w - 2 ^ k + (-1) * 2 ^ w) by lia.
    rewrite Z.mod_add by lia. symmetry. apply Z.mod_small. lia. }
  rewrite Hmask, (Z.land_comm (Z.lnot _)), Z.land_assoc.
  rewrite (Z.land_ones x w) by lia. rewrite (Z.mod_small x) by lia.
  rewrite <- Z.ldiff_land, Z.ldiff_ones_r by lia.
  rewrite Z.shiftl_mul_pow2, Z.shiftr_div_pow2 by lia.
  pose proof (Z.div_mod x (2 ^ k)). lia.
Qed.

(** Setting the low [k] bits of a multiple of [2 ^ k]. *)
Lemma lor_low_ones (x k : Z) :
  0 <= k -> 0 <= x -> x mod 2 ^ k = 0 ->
  Z.lor x (2 ^ k - 1) = x + 2 ^ k - 1.
Proof.
  intros Hk Hx Hmod. pose proof (Z.add_lor_land x (Z.ones k)) as H.
  rewrite Z.land_ones, Hmod, Z.ones_equiv in H by lia.
  replace (2 ^ k - 1) with (Z.pred (2 ^ k)) by (unfold Z.pred; lia).
  unfold Z.pred in *. lia.
Qed.

Lemma wf_networkb_wf (n : IPNetwork) : wf_networkb n = true -> wf_network n.
Proof.
  unfold wf_networkb, wf_network. intros H.
  apply andb_prop in H as [H Hs]. apply andb_prop in H as [H Hl].
  apply andb_prop in H as [H0 H1].
  apply Z.leb_le in H0, H1. apply Z.eqb_eq in Hl.
  repeat split; trivial.
  intros Hf. rewrite Hf in Hs. destruct (_scope_id _); [discriminate|reflexivity].
Qed.

Lemma netmask_eq (n : IPNetwork) :
  0 <= _prefixlen n <= width (net_family n) ->
  netmask n = 2 ^ width (net_family n) - 2 ^ host_bits n.
Proof. intros H. apply netmask_value, H. Qed.

Lemma hostmask_eq (n : IPNetwork) :
  0 <= _prefixlen n <= width (net_family n) ->
  hostmask n = 2 ^ host_bits n - 1.
Proof.
  intros Hp. unfold hostmask, netmask, host_bits.
  set (p := _prefixlen n) in *.
  assert (H : (Z.lxor (_ip_int_from_prefix (net_family n) p)
                 (_ALL_ONES (net_family n))
               =? 2 ^ (width (net_family n) - p) - 1) = true);
    [|apply Z.eqb_eq, H].
  destruct (net_family n).
  - apply (forall_below
             (fun p => Z.lxor (_ip_int_from_prefix V4 p) (_ALL_ONES V4)
                       =? 2 ^ (32 - p) - 1) 33);
      [vm_compute; reflexivity|]. change (width V4) with 32 in Hp. lia.
  - apply (forall_below
             (fun p => Z.lxor (_ip_int_from_prefix V6 p) (_ALL_ONES V6)
                       =? 2 ^ (128 - p) - 1) 129);
      [vm_compute; reflexivity|]. change (width V6) with 128 in Hp. lia.
Qed.

Lemma host_bits_range (n : IPNetwork) :
  0 <= _prefixlen n <= width (net_family n) ->
  0 <= host_bits n <= width (net_family n).
Proof. unfold host_bits. lia. Qed.

Lemma wf_first_ip (n : IPNetwork) :
  wf_network n ->
  0 <= first_ip n < 2 ^ width (net_family n)
  /\ first_ip n mod 2 ^ host_bits n = 0.
Proof.
  intros (Hp & Hland & _). unfold first_ip.
  set (x := _ip (network_address n)) in *.
  pose proof (host_bits_range n Hp) as Hk.
  pose proof (pow2_le _ _ Hk) as Hpow.
  rewrite (netmask_eq n Hp) in Hland.
  set (w := width (net_family n)) in *. set (k := host_bits n) in *.
  assert (H0 : 0 <= x).
  { rewrite <- Hland. apply Z.land_nonneg. right. lia. }
  assert (Hw : x < 2 ^ w).
  { assert (Hm : Z.land (2 ^ w - 2 ^ k) (Z.ones w) = 2 ^ w - 2 ^ k).
    { rewrite Z.land_ones by lia. apply Z.mod_small. lia. }
    assert (Hx : Z.land x (Z.ones w) = x).
    { rewrite <- Hland at 1. rewrite <- Z.land_assoc, Hm. exact Hland. }
    rewrite Z.land_ones in Hx by lia. rewrite <- Hx.
    apply Z.mod_pos_bound. lia. }
  split; [lia|].
  rewrite (land_high_mask x w k Hk) in Hland by lia. lia.
Qed.

Lemma last_ip_eq (n : IPNetwork) :
  wf_network n -> last_ip n = first_ip n + 2 ^ host_bits n - 1.
Proof.
  intros Hwf. destruct (wf_first_ip n Hwf) as [Hx Hmod].
  destruct Hwf as (Hp & _ & _).
  unfold last_ip, broadcast_address. simpl _ip.
  rewrite (hostmask_eq n Hp).
  apply lor_low_ones; [|lia|exact Hmod].
  apply (host_bits_range n Hp).
Qed.

(** The addresses of a network are those between its first address and its
    broadcast address. *)
Lemma in_network_range (n : IPNetwork) (ip : Z) :
  wf_network n ->
  in_network ip n <-> first_ip n <= ip <= last_ip n.
Proof.
  intros Hwf. rewrite (last_ip_eq n Hwf).
  destruct (wf_first_ip n Hwf) as [Hx Hmod].
  destruct Hwf as (Hp & _ & _).
  pose proof (host_bits_range n Hp) as Hk.
  pose proof (pow2_le _ _ Hk) as Hpow.
  unfold in_network. rewrite ALL_ONES_ones, Z.ones_equiv, (netmask_eq n Hp).
  unfold Z.pred.
  set (w := width (net_family n)) in *. set (k := host_bits n) in *.
  set (x := first_ip n) in *. clearbody w k x.
  apply Z.mod_divide in Hmod; [|lia]. destruct Hmod as [q Hq].
  pose proof (pow2_split k w Hk) as Hsplit.
  assert (Hq1 : x + 2 ^ k <= 2 ^ w).
  { assert (Hlt : q < 2 ^ (w - k))
      by (apply (Z.mul_lt_mono_pos_l (2 ^ k)); lia).
    rewrite Hsplit, Hq.
    replace (q * 2 ^ k + 2 ^ k) with (2 ^ k * (q + 1)) by lia.
    apply Z.mul_le_mono_nonneg_l; lia. }
  split.
  - intros [Hr Hl]. rewrite (land_high_mask ip w k Hk) in Hl by lia.
    pose proof (Z.mod_pos_bound ip (2 ^ k)). lia.
  - intros Hr. split; [lia|].
    rewrite (land_high_mask ip w k Hk) by lia.
    assert (Hm : ip mod 2 ^ k = ip - x); [|lia].
    symmetry. apply (Z.mod_unique_pos ip (2 ^ k) q); lia.
Qed.

Lemma family_eqb_refl (f : family) : family_eqb f f = true.
Proof. destruct f; reflexivity. Qed.

Lemma address_lt_value (x y : IPAddress) :
  addr_family x = addr_family y -> address_lt x y = Ok (_ip x <? _ip y).
Proof.
  intros Hf. unfold address_lt. rewrite Hf, family_eqb_refl. simpl negb.
  cbv iota. destruct (Z.eqb_spec (_ip x) (_ip y)) as [He|Hne]; simpl negb;
    cbv iota; [|reflexivity].
  rewrite He, Z.ltb_irrefl. reflexivity.
Qed.

(** Between networks of one family [subnet_of] never raises. *)
Lemma subnet_of_value (a b : IPNetwork) :
  net_family a = net_family b -> subnet_of a b = Ok (is_subnetb a b).
Proof.
  intros Hf. unfold subnet_of, _is_subnet_of, version. rewrite Hf, Z.eqb_refl.
  simpl negb. cbv iota.
  unfold address_le, address_ge.
  rewrite (address_lt_value (network_address b) (network_address a))
    by (symmetry; exact Hf).
  rewrite (address_lt_value (broadcast_address b) (broadcast_address a))
    by (symmetry; exact Hf).
  unfold bind, is_subnetb, address_eq, first_ip, last_ip.
  fold (net_family a). fold (net_family b).
  rewrite Hf, family_eqb_refl, andb_true_r.
  match goal with
  | |- (if ?c then _ else _) = _ => destruct c
  end; reflexivity.
Qed.

(** For networks without zone identifier the test of [subnet_of] is
    containment of the address sets. *)
Lemma subnet_of_iff_covers (a b : IPNetwork) :
  wf_network a -> wf_network b ->
  net_family a = net_family b ->
  _scope_id (network_address a) = None ->
  _scope_id (network_address b) = None ->
  subnet_of a b = Ok true <-> covers b a.
Proof.
  intros Ha Hb Hf Hsa Hsb. rewrite (subnet_of_value a b Hf).
  unfold is_subnetb. rewrite Hsa, Hsb. simpl scope_eqb. rewrite andb_true_r.
  pose proof (in_network_range a) as Ra. pose proof (in_network_range b) as Rb.
  pose proof (last_ip_eq a Ha) as La.
  destruct (wf_first_ip a Ha) as [Hxa _].
  assert (Hpa : 0 < 2 ^ host_bits a).
  { apply Z.pow_pos_nonneg; [lia|]. destruct Ha as (Hp & _).
    apply (host_bits_range a Hp). }
  split.
  - intros [= H]. apply andb_prop in H as [Hlo Hhi].
    apply negb_true_iff, Z.ltb_ge in Hhi.
    assert (Hlo' : first_ip b <= first_ip a).
    { apply orb_prop in Hlo as [H|H]; [apply Z.ltb_lt in H|apply Z.eqb_eq in H];
        lia. }
    intros ip Hip. apply (Rb ip Hb). apply (Ra ip Ha) in Hip. lia.
  - intros Hc. f_equal.
    assert (H1 : in_network (first_ip a) b) by (apply Hc, (Ra _ Ha); lia).
    assert (H2 : in_network (last_ip a) b) by (apply Hc, (Ra _ Ha); lia).
    apply (Rb _ Hb) in H1, H2.
    apply andb_true_intro. split.
    + destruct (Z.ltb_spec (first_ip b) (first_ip a)); [reflexivity|].
      simpl. apply Z.eqb_eq. lia.
    + apply negb_true_iff, Z.ltb_ge. lia.
Qed.

Lemma is_subnetb_bounds (a b : IPNetwork) :
  _scope_id (network_address b) = None ->
  is_subnetb a b = true <->
  (match _scope_id (network_address a) with
   | None => first_ip b <= first_ip a
   | Some _ => first_ip b < first_ip a
   end) /\ last_ip a <= last_ip b.
Proof.
  intros Hb. unfold is_subnetb. rewrite Hb.
  rewrite andb_true_iff, orb_true_iff, andb_true_iff, negb_true_iff,
    Z.ltb_lt, Z.eqb_eq, Z.ltb_ge.
  destruct (_scope_id (network_address a)); simpl;
    intuition (try lia; try discriminate).
Qed.

Lemma covers_bounds (a b : IPNetwork) :
  wf_network a -> wf_network b -> covers b a ->
  first_ip b <= first_ip a /\ last_ip a <= last_ip b.
Proof.
  intros Ha Hb Hc.
  pose proof (last_ip_eq a Ha) as La.
  assert (Hpa : 0 < 2 ^ host_bits a).
  { apply Z.pow_pos_nonneg; [lia|]. destruct Ha as (Hp & _).
    apply (host_bits_range a Hp). }
  assert (H1 : in_network (first_ip a) b)
    by (apply Hc, (in_network_range a _ Ha); lia).
  assert (H2 : in_network (last_ip a) b)
    by (apply Hc, (in_network_range a _ Ha); lia).
  apply (in_network_range b _ Hb) in H1, H2. lia.
Qed.


End Masks.

(** ** What [ip_network] raises and what it builds *)

Section Parsing.

Lemma only_Ok {A : Type} (a : A) : only_ValueError (Ok a).
Proof. intros e [=]. Qed.

Lemma only_Raise {A : Type} (e : exn) :
  isinstance_ValueError e = true -> only_ValueError (@Raise A e).
Proof. intros He e' [= <-]. exact He. Qed.

Lemma only_bind {A B : Type} (r : result A) (k : A -> result B) :
  only_ValueError r -> (forall a, only_ValueError (k a)) ->
  only_ValueError (bind r k).
Proof.
  intros Hr Hk e. destruct r as [a|e0]; simpl.
  - apply Hk.
  - intros [= <-]. apply Hr. reflexivity.
Qed.

Lemma only_except_ValueError {A : Type} (r h : result A) :
  only_ValueError r -> only_ValueError h ->
  only_ValueError (except_ValueError r h).
Proof.
  intros Hr Hh e. destruct r as [a|e0]; simpl; [intros [=]|].
  destruct (isinstance_ValueError e0) eqn:He0; [apply Hh|].
  intros [= <-]. apply Hr. reflexivity.
Qed.

Lemma only_except_AddressValueError {A : Type} (r h : result A) :
  only_ValueError r -> only_ValueError h ->
  only_ValueError (except_AddressValueError r h).
Proof.
  intros Hr Hh e. destruct r as [a|[]]; simpl; intros H;
    try discriminate H; try (apply Hh; exact H); try (apply Hr; exact H).
Qed.

Lemma only_except_NetmaskValueError {A : Type} (r h : result A) :
  only_ValueError r -> only_ValueError h ->
  only_ValueError (except_NetmaskValueError r h).
Proof.
  intros Hr Hh e. destruct r as [a|[]]; simpl; intros H;
    try discriminate H; try (apply Hh; exact H); try (apply Hr; exact H).
Qed.

Lemma only_int (s : string) (b : Py.base) : only_ValueError (Py.int s b).
Proof. intros e H. rewrite (int_Raise_ValueError s b e H). reflexivity. Qed.

Create HintDb only discriminated.

Ltac only_step :=
  first
    [ solve [auto with only]
    | apply only_Ok
    | apply only_Raise; reflexivity
    | apply only_int
    | apply only_except_ValueError
    | apply only_except_AddressValueError
    | apply only_except_NetmaskValueError
    | apply only_bind; [|intros ?; cbv beta]
    | match goal with
      | |- only_ValueError (if ?c then _ else _) => destruct c
      | |- only_ValueError (match ?x with _ => _ end) => destruct x
      | |- only_ValueError (let '(_, _) := ?x in _) => destruct x
      end ].

Ltac only_tac := repeat only_step.

Lemma only_prefix_from_ip_int (f : family) (x : Z) :
  only_ValueError (_prefix_from_ip_int f x).
Proof. unfold _prefix_from_ip_int. only_tac. Qed.

Lemma only_prefix_from_prefix_string (f : family) (s : string) :
  only_ValueError (_prefix_from_prefix_string f s).
Proof. unfold _prefix_from_prefix_string, _report_invalid_netmask. only_tac. Qed.

Lemma only_split_addr_prefix (f : family) (s : string) :
  only_ValueError (_split_addr_prefix f s).
Proof. unfold _split_addr_prefix, _split_optional_netmask. only_tac. Qed.

Lemma only_parse_octet (s : string) : only_ValueError (_parse_octet s).
Proof. unfold _parse_octet. only_tac. Qed.

Hint Resolve only_prefix_from_ip_int only_prefix_from_prefix_string
  only_split_addr_prefix only_parse_octet : only.

Lemma only_from_octets (octets : list string) (acc : Z) :
  only_ValueError (from_octets acc octets).
Proof.
  revert acc. induction octets as [|o octets IH]; intros acc; simpl; only_tac;
    try apply IH.
Qed.

Hint Resolve only_from_octets : only.

Lemma only_v4_ip_int_from_string (s : string) :
  only_ValueError (v4_ip_int_from_string s).
Proof. unfold v4_ip_int_from_string. only_tac. Qed.

Hint Resolve only_v4_ip_int_from_string : only.

Lemma only_IPv4Address (s : string) : only_ValueError (IPv4Address s).
Proof. unfold IPv4Address. only_tac. Qed.

Lemma only_prefix_from_ip_string (s : string) :
  only_ValueError (_prefix_from_ip_string s).
Proof.
  unfold _prefix_from_ip_string, _report_invalid_netmask. only_tac.
Qed.

Hint Resolve only_IPv4Address only_prefix_from_ip_string : only.

Lemma only_v4_make_netmask (m : mask_arg) : only_ValueError (v4_make_netmask m).
Proof. unfold v4_make_netmask, _report_invalid_netmask. only_tac. Qed.

Lemma only_check_host_bits (a : IPAddress) (p : Z) (strict : bool) :
  only_ValueError (check_host_bits a p strict).
Proof. unfold check_host_bits. only_tac. Qed.

Hint Resolve only_v4_make_netmask only_check_host_bits : only.

Lemma only_IPv4Network (s : string) (strict : bool) :
  only_ValueError (IPv4Network s strict).
Proof. unfold IPv4Network. only_tac. Qed.

Lemma only_parse_hextet (s : string) : only_ValueError (_parse_hextet s).
Proof. unfold _parse_hextet. only_tac. Qed.

Hint Resolve only_parse_hextet : only.

Lemma only_parse_hextets (hs : list string) (acc : Z) :
  only_ValueError (parse_hextets acc hs).
Proof.
  revert acc. induction hs as [|h hs IH]; intros acc; simpl; only_tac;
    try apply IH.
Qed.

Lemma only_find_skip_index (parts : list string) (range : list nat)
  (skip : option nat) : only_ValueError (find_skip_index parts range skip).
Proof.
  revert skip. induction range as [|i range IH]; intros skip; simpl.
  - only_tac.
  - destruct (is_empty _); [destruct skip|]; only_tac; try apply IH.
Qed.

Lemma only_hextet_layout (parts : list string) (skip : option nat) :
  only_ValueError (hextet_layout parts skip).
Proof. unfold hextet_layout. only_tac. Qed.

Hint Resolve only_parse_hextets only_find_skip_index only_hextet_layout : only.

Lemma only_v6_ip_int_from_string (s : string) :
  only_ValueError (v6_ip_int_from_string s).
Proof. unfold v6_ip_int_from_string. only_tac. Qed.

Lemma only_split_scope_id (s : string) : only_ValueError (_split_scope_id s).
Proof.
  unfold _split_scope_id. destruct (Py.partition "%" s) as [[addr sep] scope].
  only_tac.
Qed.

Hint Resolve only_v6_ip_int_from_string only_split_scope_id : only.

Lemma only_IPv6Address (s : string) : only_ValueError (IPv6Address s).
Proof. unfold IPv6Address. only_tac. Qed.

Lemma only_v6_make_netmask (m : mask_arg) : only_ValueError (v6_make_netmask m).
Proof. unfold v6_make_netmask, _report_invalid_netmask. only_tac. Qed.

Hint Resolve only_IPv6Address only_v6_make_netmask : only.

Lemma only_IPv6Network (s : string) (strict : bool) :
  only_ValueError (IPv6Network s strict).
Proof. unfold IPv6Network. only_tac. Qed.

(** [ip_network] raises plain [ValueError] and nothing else. *)
Lemma ip_network_Raise (s : string) (e : exn) :
  ip_network s = Raise e -> e = ValueError.
Proof.
  unfold ip_network, ip_network_strict.
  pose proof (only_IPv4Network s true) as H4.
  pose proof (only_IPv6Network s true) as H6.
  destruct (IPv4Network s true) as [n|e4]; simpl; [discriminate|].
  specialize (H4 e4 eq_refl).
  destruct e4; try discriminate H4; simpl.
  - congruence.
  - destruct (IPv6Network s true) as [n|e6]; simpl; [discriminate|].
    specialize (H6 e6 eq_refl). destruct e6; try discriminate H6; simpl;
      congruence.
  - destruct (IPv6Network s true) as [n|e6]; simpl; [discriminate|].
    specialize (H6 e6 eq_refl). destruct e6; try discriminate H6; simpl;
      congruence.
Qed.

End Parsing.

Section Construction.

Lemma bind_Ok_inv {A B : Type} (r : result A) (k : A -> result B) (b : B) :
  bind r k = Ok b -> exists a : A, r = Ok a /\ k a = Ok b.
Proof.
  destruct r as [a|e]; simpl; [|discriminate]. intros H. exists a. auto.
Qed.

(** With [strict=True] a network is built only from an address that has no
    host bit set, and the address is kept as it is. *)
Lemma check_host_bits_strict (a : IPAddress) (p : Z) (n : IPNetwork) :
  check_host_bits a p true = Ok n ->
  n = mkNetwork a p
  /\ Z.land (_ip a) (_ip_int_from_prefix (addr_family a) p) = _ip a.
Proof.
  unfold check_host_bits.
  destruct (Z.eqb_spec (Z.land (_ip a) (_ip_int_from_prefix (addr_family a) p))
              (_ip a)) as [He|Hne]; simpl; [|discriminate].
  intros [= <-]. auto.
Qed.

Lemma check_host_bits_rejects (a : IPAddress) (p : Z) :
  Z.land (_ip a) (_ip_int_from_prefix (addr_family a) p) <> _ip a ->
  check_host_bits a p true = Raise ValueError.
Proof.
  intros Hne. unfold check_host_bits.
  destruct (Z.eqb_spec (Z.land (_ip a) (_ip_int_from_prefix (addr_family a) p))
              (_ip a)) as [He|_]; [contradiction|reflexivity].
Qed.

Lemma bit_length_nonneg (x : Z) : 0 <= Py.bit_length x.
Proof.
  unfold Py.bit_length. destruct (x =? 0); [lia|].
  pose proof (Z.log2_nonneg (Z.abs x)). lia.
Qed.

Lemma prefix_from_ip_int_range (f : family) (x p : Z) :
  _prefix_from_ip_int f x = Ok p -> 0 <= p <= width f.
Proof.
  unfold _prefix_from_ip_int, _count_righthand_zero_bits, width.
  pose proof (width_pos f) as Hw. unfold width in Hw.
  pose proof (bit_length_nonneg (Z.land (Z.lnot x) (x - 1))) as Hb.
  destruct (negb _); [discriminate|]. intros [= <-].
  destruct (x =? 0); lia.
Qed.

Lemma prefix_from_prefix_string_range (f : family) (s : string) (p : Z) :
  _prefix_from_prefix_string f s = Ok p -> 0 <= p <= width f.
Proof.
  unfold _prefix_from_prefix_string, _report_invalid_netmask, width.
  destruct (negb (Py.isascii_isdigit s)); [discriminate|].
  intros H. apply bind_Ok_inv in H as (q & _ & H).
  destruct (Z.leb_spec 0 q); destruct (Z.leb_spec q (_max_prefixlen f));
    simpl in H; try discriminate H.
  injection H as <-. lia.
Qed.

Lemma prefix_from_ip_string_range (s : string) (p : Z) :
  _prefix_from_ip_string s = Ok p -> 0 <= p <= width V4.
Proof.
  unfold _prefix_from_ip_string. intros H.
  apply bind_Ok_inv in H as (x & _ & H).
  destruct (_prefix_from_ip_int V4 x) as [q|e] eqn:Hq.
  - injection H as <-. apply (prefix_from_ip_int_range V4 x q Hq).
  - destruct (isinstance_ValueError e); [|discriminate].
    destruct (_prefix_from_ip_int V4 (Z.lxor x (_ALL_ONES V4))) as [q|e'] eqn:Hq';
      simpl in H.
    + injection H as <-. apply (prefix_from_ip_int_range V4 _ q Hq').
    + destruct (isinstance_ValueError e'); discriminate.
Qed.

Lemma v4_make_netmask_range (m : mask_arg) (p : Z) :
  v4_make_netmask m = Ok p -> 0 <= p <= width V4.
Proof.
  destruct m as [q|s]; unfold v4_make_netmask, _report_invalid_netmask.
  - destruct ((0 <=? q) && (q <=? _max_prefixlen V4)) eqn:Hr; simpl;
      [|discriminate].
    intros [= <-]. apply andb_prop in Hr as [H0%Z.leb_le H1%Z.leb_le].
    cbv [width _max_prefixlen] in *. lia.
  - destruct (_prefix_from_prefix_string V4 s) as [q|e] eqn:Hq; simpl.
    + intros [= <-]. apply (prefix_from_prefix_string_range V4 s q Hq).
    + destruct e; try discriminate. apply prefix_from_ip_string_range.
Qed.

Lemma v6_make_netmask_range (m : mask_arg) (p : Z) :
  v6_make_netmask m = Ok p -> 0 <= p <= width V6.
Proof.
  destruct m as [q|s]; unfold v6_make_netmask, _report_invalid_netmask.
  - destruct ((0 <=? q) && (q <=? _max_prefixlen V6)) eqn:Hr; simpl;
      [|discriminate].
    intros [= <-]. apply andb_prop in Hr as [H0%Z.leb_le H1%Z.leb_le].
    cbv [width _max_prefixlen] in *. lia.
  - apply prefix_from_prefix_string_range.
Qed.

Lemma IPv4Address_shape (s : string) (a : IPAddress) :
  IPv4Address s = Ok a -> addr_family a = V4 /\ _scope_id a = None.
Proof.
  unfold IPv4Address. destruct (Py.contains "/" s); [discriminate|].
  intros H. apply bind_Ok_inv in H as (ip & _ & [= <-]). auto.
Qed.

Lemma IPv6Address_shape (s : string) (a : IPAddress) :
  IPv6Address s = Ok a -> addr_family a = V6.
Proof.
  unfold IPv6Address. destruct (Py.contains "/" s); [discriminate|].
  intros H. apply bind_Ok_inv in H as ([addr scope] & _ & H).
  apply bind_Ok_inv in H as (ip & _ & [= <-]). reflexivity.
Qed.

(** The steps of [IPv4Network.__init__] that a successful call went
    through. *)
Lemma IPv4Network_inv (s : string) (n : IPNetwork) :
  IPv4Network s true = Ok n ->
  exists (addr : string) (mask : mask_arg),
    _split_addr_prefix V4 s = Ok (addr, mask)
    /\ IPv4Address addr = Ok (network_address n)
    /\ v4_make_netmask mask = Ok (_prefixlen n)
    /\ Z.land (first_ip n) (netmask n) = first_ip n.
Proof.
  unfold IPv4Network. intros H.
  apply bind_Ok_inv in H as ([addr mask] & Hsplit & H).
  apply bind_Ok_inv in H as (a & Haddr & H).
  apply bind_Ok_inv in H as (p & Hmask & H).
  apply check_host_bits_strict in H as [-> Hland].
  exists addr, mask. auto.
Qed.

Lemma IPv6Network_inv (s : string) (n : IPNetwork) :
  IPv6Network s true = Ok n ->
  exists (addr : string) (mask : mask_arg),
    _split_addr_prefix V6 s = Ok (addr, mask)
    /\ IPv6Address addr = Ok (network_address n)
    /\ v6_make_netmask mask = Ok (_prefixlen n)
    /\ Z.land (first_ip n) (netmask n) = first_ip n.
Proof.
  unfold IPv6Network. intros H.
  apply bind_Ok_inv in H as ([addr mask] & Hsplit & H).
  apply bind_Ok_inv in H as (a & Haddr & H).
  apply bind_Ok_inv in H as (p & Hmask & H).
  apply check_host_bits_strict in H as [-> Hland].
  exists addr, mask. auto.
Qed.

(** A network comes from one of the two constructors, IPv4 tried first. *)
Lemma ip_network_inv (s : string) (n : IPNetwork) :
  ip_network s = Ok n ->
  (IPv4Network s true = Ok n /\ net_family n = V4)
  \/ (IPv6Network s true = Ok n /\ net_family n = V6).
Proof.
  unfold ip_network, ip_network_strict.
  destruct (IPv4Network s true) as [n4|e4] eqn:H4; simpl.
  - intros [= <-]. left. split; [reflexivity|].
    apply IPv4Network_inv in H4 as (addr & mask & _ & Ha & _).
    apply IPv4Address_shape in Ha as [Hf _]. exact Hf.
  - assert (H6 : IPv6Network s true = Ok n ->
                 (Raise e4 = Ok n /\ net_family n = V4)
                 \/ (IPv6Network s true = Ok n /\ net_family n = V6)).
    { intros H6. right. split; [exact H6|].
      apply IPv6Network_inv in H6 as (addr & mask & _ & Ha & _).
      apply IPv6Address_shape in Ha. exact Ha. }
    destruct e4; simpl; try discriminate;
      destruct (IPv6Network s true) as [n6|e6]; simpl in *;
      try (destruct e6; discriminate);
      intros [= <-]; apply H6; reflexivity.
Qed.

Lemma ip_network_wf (s : string) (n : IPNetwork) :
  ip_network s = Ok n -> wf_network n.
Proof.
  intros H. apply ip_network_inv in H as [[H Hf]|[H Hf]].
  - apply IPv4Network_inv in H as (addr & mask & _ & Ha & Hm & Hl).
    apply IPv4Address_shape in Ha as [_ Hs].
    apply v4_make_netmask_range in Hm.
    unfold wf_network. rewrite Hf. auto.
  - apply IPv6Network_inv in H as (addr & mask & _ & _ & Hm & Hl).
    apply v6_make_netmask_range in Hm.
    unfold wf_network. rewrite Hf. repeat split; try tauto; discriminate.
Qed.

End Construction.

(** ** The prefix classifier *)

Section PrefixClassifier.

(** Importing the module succeeds: every literal of the two lists is a
    network. *)
Lemma registry_loaded :
  load_networks SPECIAL_IPV4 = Ok SPECIAL_IPV4_NETWORKS
  /\ load_networks SPECIAL_IPV6 = Ok SPECIAL_IPV6_NETWORKS.
Proof. split; vm_compute; reflexivity. Qed.

Lemma registry_entries (f : family) (sp : IPNetwork) :
  In sp (registry f) ->
  net_family sp = f /\ wf_network sp /\ _scope_id (network_address sp) = None.
Proof.
  intros Hin.
  assert (H : forallb (registry_entry_ok f) (registry f) = true)
    by (destruct f; vm_compute; reflexivity).
  rewrite forallb_forall in H. specialize (H sp Hin).
  unfold registry_entry_ok in H.
  apply andb_prop in H as [H Hs]. apply andb_prop in H as [Hf Hwf].
  split; [|split].
  - destruct (net_family sp), f; try reflexivity; discriminate.
  - apply wf_networkb_wf, Hwf.
  - destruct (_scope_id _); [discriminate|reflexivity].
Qed.

Lemma version_family (n : IPNetwork) (f : family) :
  version n = _version f <-> net_family n = f.
Proof.
  unfold version. destruct (net_family n), f; simpl; split;
    intros H; try reflexivity; discriminate.
Qed.

Lemma any_subnet_of_value (network : IPNetwork) (networks : list IPNetwork) :
  (forall sp, In sp networks -> net_family sp = net_family network) ->
  any_subnet_of network networks = Ok (existsb (is_subnetb network) networks).
Proof.
  induction networks as [|sp rest IH]; intros Hf; simpl; [reflexivity|].
  rewrite (subnet_of_value network sp)
    by (symmetry; apply Hf; left; reflexivity).
  simpl. destruct (is_subnetb network sp); [reflexivity|].
  apply IH. intros sp' Hin. apply Hf. right. exact Hin.
Qed.

(** The classifier on a literal that parses: a scan of the table of the
    network's own family, which never raises. *)
Lemma is_bogon_pfx_value (prefix : string) (network : IPNetwork) :
  ip_network prefix = Ok network ->
  is_bogon_pfx prefix
  = Ok (existsb (is_subnetb network) (registry (net_family network))).
Proof.
  intros H. unfold is_bogon_pfx. rewrite H. simpl bind.
  replace (if version network =? 4 then SPECIAL_IPV4_NETWORKS
           else SPECIAL_IPV6_NETWORKS)
    with (registry (net_family network))
    by (unfold version; destruct (net_family network); reflexivity).
  apply any_subnet_of_value. intros sp Hin.
  apply (registry_entries _ sp Hin).
Qed.

Lemma is_bogon_pfx_Raise (prefix : string) (e : exn) :
  ip_network prefix = Raise e -> is_bogon_pfx prefix = Raise ValueError.
Proof.
  intros H. unfold is_bogon_pfx. rewrite H.
  rewrite (ip_network_Raise prefix e H). reflexivity.
Qed.

Lemma existsb_subnet (network : IPNetwork) (f : family) :
  net_family network = f ->
  existsb (is_subnetb network) (registry f) = true
  <-> exists sp, In sp (registry f) /\ subnet_of network sp = Ok true.
Proof.
  intros Hf. rewrite existsb_exists. split; intros (sp & Hin & H); exists sp;
    (split; [exact Hin|]);
    destruct (registry_entries f sp Hin) as (Hsp & _);
    rewrite (subnet_of_value network sp) in * by congruence; congruence.
Qed.




Lemma ten_slash_8_entry :
  In ten_slash_8 (registry V4) /\ wf_network ten_slash_8.
Proof.
  split; [right; right; left; reflexivity|].
  apply wf_networkb_wf. vm_compute. reflexivity.
Qed.

(** C4: every IPv4 prefix strictly inside 10.0.0.0/8 is a bogon; so is
    10.0.0.0/8 itself, which contains itself; 8.8.8.0/24 is not. *)
Theorem private_10_is_bogon :
  (forall (prefix : string) (P : IPNetwork),
      ip_network prefix = Ok P ->
      version P = 4 ->
      strictly_contained P ten_slash_8 ->
      is_bogon_pfx prefix = Ok true)
  /\ ip_network "10.0.0.0/8" = Ok ten_slash_8
  /\ covers ten_slash_8 ten_slash_8
  /\ is_bogon_pfx "10.0.0.0/8" = Ok true
  /\ is_bogon_pfx "8.8.8.0/24" = Ok false.
Proof.
  split; [|split; [|split; [|split]]];
    [| vm_compute; reflexivity | | vm_compute; reflexivity
     | vm_compute; reflexivity].
  - intros prefix P Hparse Hv [Hcov _].
    rewrite (is_bogon_pfx_value prefix P Hparse). f_equal.
    apply (version_family P V4) in Hv.
    pose proof (ip_network_wf prefix P Hparse) as Hwf.
    destruct ten_slash_8_entry as [Hin Hwt].
    rewrite Hv. apply (existsb_subnet P V4 Hv).
    exists ten_slash_8. split; [exact Hin|].
    apply (subnet_of_iff_covers P ten_slash_8 Hwf Hwt); trivial.
    destruct Hwf as (_ & _ & Hs). apply Hs, Hv.
  - intros ip H. exact H.
Qed.

Lemma private_10_is_bogon_witness :
  is_bogon_pfx "10.1.0.0/16" = Ok true.
Proof.
  apply (proj1 private_10_is_bogon "10.1.0.0/16"%string
           (mkNetwork (mkAddress V4 167837696 None) 16)).
  - vm_compute. reflexivity.
  - reflexivity.
  - split; [|discriminate].
    apply (subnet_of_iff_covers (mkNetwork (mkAddress V4 167837696 None) 16)
             ten_slash_8).
    + apply wf_networkb_wf. vm_compute. reflexivity.
    + apply wf_networkb_wf. vm_compute. reflexivity.
    + reflexivity.
    + reflexivity.
    + reflexivity.
    + vm_compute. reflexivity.
Defined.

(** *** Literals with host bits set *)

Lemma split_nonempty (sep : ascii) (s : string) : Py.split sep s <> [].
Proof.
  destruct s as [|c s]; simpl; [discriminate|].
  destruct (Ascii.eqb c sep); [discriminate|].
  destruct (Py.split sep s); discriminate.
Qed.

Lemma split_no_sep (sep : ascii) (s : string) :
  Py.contains sep s = false -> Py.split sep s = [s].
Proof.
  induction s as [|c s IH]; simpl; [reflexivity|].
  intros [Hc Hs]%orb_false_elim. rewrite Hc, (IH Hs). reflexivity.
Qed.

Lemma contains_of_split (sep c : ascii) (s : string) :
  Ascii.eqb sep c = false ->
  (forall p, In p (Py.split sep s) -> Py.contains c p = false) ->
  Py.contains c s = false.
Proof.
  intros Hne. induction s as [|d s IH]; simpl; [reflexivity|].
  destruct (Ascii.eqb d sep) eqn:Hd.
  - intros H. apply Ascii.eqb_eq in Hd. subst d. rewrite Hne. simpl.
    apply IH. intros p Hp. apply H. right. exact Hp.
  - pose proof (split_nonempty sep s) as Hnil.
    destruct (Py.split sep s) as [|p ps]; [contradiction|].
    intros H. pose proof (H _ (or_introl eq_refl)) as Hhd. simpl in Hhd.
    apply orb_false_elim in Hhd as [Hdc Hp]. rewrite Hdc. simpl.
    apply IH. intros q [<-|Hq]; [exact Hp|]. apply H. right. exact Hq.
Qed.

Lemma partition_before (sep c : ascii) (s before after : string) (found : bool) :
  Py.partition sep s = (before, found, after) ->
  Py.contains c before = true -> Py.contains c s = true.
Proof.
  revert before after found. induction s as [|d s IH]; intros before after found;
    simpl.
  - intros [= <- _ _]. discriminate.
  - destruct (Ascii.eqb d sep).
    + intros [= <- _ _]. discriminate.
    + destruct (Py.partition sep s) as [[b f] a] eqn:Hp.
      intros [= <- _ _]. simpl.
      destruct (Ascii.eqb d c); [reflexivity|]. simpl.
      apply (IH b a f eq_refl).
Qed.

Lemma digits_no_colon (s : string) :
  Py.all_digits s = true -> Py.contains ":" s = false.
Proof.
  induction s as [|c s IH]; simpl; [reflexivity|].
  intros [Hc Hs]%andb_prop. rewrite (IH Hs), orb_false_r.
  revert Hc. clear. revert c.
  intros [[] [] [] [] [] [] [] []]; vm_compute; try discriminate; reflexivity.
Qed.

Lemma parse_octet_digits (o : string) (v : Z) :
  _parse_octet o = Ok v -> Py.all_digits o = true.
Proof.
  unfold _parse_octet. destruct (is_empty o); [discriminate|].
  destruct (Py.isascii_isdigit o) eqn:Hd; simpl; [|discriminate].
  intros _. destruct o; [discriminate|exact Hd].
Qed.

Lemma from_octets_digits (octets : list string) (acc v : Z) :
  from_octets acc octets = Ok v ->
  forall o, In o octets -> Py.contains ":" o = false.
Proof.
  revert acc. induction octets as [|o octets IH]; intros acc; simpl.
  - intros _ o [].
  - intros H. apply bind_Ok_inv in H as (x & Hx & H).
    intros o' [<-|Hin].
    + apply digits_no_colon, (parse_octet_digits _ _ Hx).
    + apply (IH _ H o' Hin).
Qed.

(** A text with a colon is not an IPv4 address. *)
Lemma colon_not_IPv4Address (s : string) :
  Py.contains ":" s = true -> IPv4Address s = Raise AddressValueError.
Proof.
  intros Hc. unfold IPv4Address. destruct (Py.contains "/" s); [reflexivity|].
  unfold v4_ip_int_from_string. destruct (is_empty s); [reflexivity|].
  destruct (negb _); [reflexivity|].
  pose proof (only_from_octets (Py.split "." s) 0) as Honly.
  destruct (from_octets 0 (Py.split "." s)) as [v|e] eqn:Hoct; simpl.
  - pose proof (from_octets_digits _ _ _ Hoct) as Hd.
    rewrite (contains_of_split "." ":" s eq_refl Hd) in Hc. discriminate Hc.
  - rewrite (Honly e eq_refl). reflexivity.
Qed.

Lemma v6_int_has_colon (s : string) (ip : Z) :
  v6_ip_int_from_string s = Ok ip -> Py.contains ":" s = true.
Proof.
  unfold v6_ip_int_from_string. destruct (is_empty s); [discriminate|].
  destruct (Py.contains ":" s) eqn:Hc; [reflexivity|].
  rewrite (split_no_sep ":" s Hc). simpl. discriminate.
Qed.

(** An IPv6 address is not an IPv4 address. *)
Lemma IPv6Address_not_IPv4Address (s : string) (a : IPAddress) :
  IPv6Address s = Ok a -> IPv4Address s = Raise AddressValueError.
Proof.
  unfold IPv6Address. destruct (Py.contains "/" s); [discriminate|].
  intros H. apply bind_Ok_inv in H as ([addr scope] & Hsplit & H).
  apply bind_Ok_inv in H as (ip & Hip & _).
  apply colon_not_IPv4Address.
  apply v6_int_has_colon in Hip.
  unfold _split_scope_id in Hsplit.
  destruct (Py.partition "%" s) as [[before found] after] eqn:Hp.
  assert (before = addr).
  { destruct (negb found); [congruence|].
    destruct (is_empty after || Py.contains "%" after); congruence. }
  subst before. apply (partition_before _ _ _ _ _ _ Hp Hip).
Qed.

Lemma split_addr_prefix_family (s addr : string) (mask : mask_arg) :
  _split_addr_prefix V6 s = Ok (addr, mask) ->
  exists mask', _split_addr_prefix V4 s = Ok (addr, mask').
Proof.
  unfold _split_addr_prefix.
  destruct (_split_optional_netmask s) as [parts|e]; simpl; [|discriminate].
  destruct parts as [|a [|m [|x rest]]]; intros [= <- _]; eexists; reflexivity.
Qed.

(** C3, as the code has it: a literal whose address has host bits set for
    its prefix length is rejected with [ValueError], in both families; no
    masking takes place, so that a network that is classified always has
    the address written in the literal, free of host bits. "10.0.0.1/8" is
    rejected, "10.0.0.0/8" is classified. *)
Theorem host_bits_are_rejected :
  (forall (prefix addr : string) (mask : mask_arg) (a : IPAddress) (p : Z),
      _split_addr_prefix V4 prefix = Ok (addr, mask) ->
      IPv4Address addr = Ok a ->
      v4_make_netmask mask = Ok p ->
      Z.land (_ip a) (_ip_int_from_prefix V4 p) <> _ip a ->
      is_bogon_pfx prefix = Raise ValueError)
  /\ (forall (prefix addr : string) (mask : mask_arg) (a : IPAddress) (p : Z),
        _split_addr_prefix V6 prefix = Ok (addr, mask) ->
        IPv6Address addr = Ok a ->
        v6_make_netmask mask = Ok p ->
        Z.land (_ip a) (_ip_int_from_prefix V6 p) <> _ip a ->
        is_bogon_pfx prefix = Raise ValueError)
  /\ (forall (prefix : string) (network : IPNetwork),
        ip_network prefix = Ok network ->
        Z.land (first_ip network) (netmask network) = first_ip network)
  /\ is_bogon_pfx "10.0.0.1/8" = Raise ValueError
  /\ is_bogon_pfx "10.0.0.0/8" = Ok true.
Proof.
  split; [|split; [|split; [|split]]];
    [| | | vm_compute; reflexivity | vm_compute; reflexivity].
  - intros prefix addr mask a p Hsplit Haddr Hmask Hbits.
    apply (is_bogon_pfx_Raise prefix ValueError).
    unfold ip_network, ip_network_strict, IPv4Network.
    rewrite Hsplit. simpl bind. rewrite Haddr. simpl bind.
    rewrite Hmask. simpl bind.
    apply IPv4Address_shape in Haddr as [Hf _].
    rewrite check_host_bits_rejects by (rewrite Hf; exact Hbits).
    reflexivity.
  - intros prefix addr mask a p Hsplit Haddr Hmask Hbits.
    apply (is_bogon_pfx_Raise prefix ValueError).
    destruct (split_addr_prefix_family _ _ _ Hsplit) as [mask' Hsplit4].
    unfold ip_network, ip_network_strict, IPv4Network, IPv6Network.
    rewrite Hsplit4, Hsplit. simpl bind.
    rewrite (IPv6Address_not_IPv4Address addr a Haddr), Haddr. simpl bind.
    rewrite Hmask. simpl bind.
    apply IPv6Address_shape in Haddr.
    rewrite check_host_bits_rejects by (rewrite Haddr; exact Hbits).
    reflexivity.
  - intros prefix network Hparse.
    destruct (ip_network_wf prefix network Hparse) as (_ & H & _). exact H.
Qed.

Lemma host_bits_are_rejected_witness :
  is_bogon_pfx "192.168.1.1/24" = Raise ValueError.
Proof.
  apply (proj1 host_bits_are_rejected "192.168.1.1/24"%string
           "192.168.1.1"%string (MaskStr "24")
           (mkAddress V4 3232235777 None) 24).
  - reflexivity.
  - vm_compute. reflexivity.
  - vm_compute. reflexivity.
  - vm_compute. discriminate.
Defined.

(** C3 as stated fails: "10.0.0.1/8" is rejected, not masked to the
    network 10.0.0.0/8 and classified. *)
Lemma host_bits_not_masked :
  ~ (exists b : bool, is_bogon_pfx "10.0.0.1/8" = Ok b)
  /\ ip_network "10.0.0.1/8" <> ip_network "10.0.0.0/8".
Proof.
  split.
  - intros [b H]. vm_compute in H. discriminate H.
  - vm_compute. discriminate.
Qed.

End PrefixClassifier.

(** ** Malformed inputs *)

Section MalformedInputs.




End MalformedInputs.

(** ** Further properties of the classifiers *)

Section MoreOnClassifiers.

(** X1. The reserved ASNs are three isolated values and two intervals:
    the classifier answers true on these and false on everything else. *)
Theorem bogon_asn_set (raw : asn_raw) (n : Z) :
  extract_asn raw = Ok n ->
  (is_bogon_asn raw = Ok true <->
   n = 0 \/ n = 112 \/ n = 23456
   \/ 64496 <= n <= 131071 \/ 4200000000 <= n <= 4294967295)
  /\ (is_bogon_asn raw = Ok false <->
      ~ (n = 0 \/ n = 112 \/ n = 23456
         \/ 64496 <= n <= 131071 \/ 4200000000 <= n <= 4294967295)).
Proof.
  intros H. rewrite (is_bogon_asn_of_extract raw n H).
  assert (Hiff : reserved n = true <->
                 n = 0 \/ n = 112 \/ n = 23456
                 \/ 64496 <= n <= 131071 \/ 4200000000 <= n <= 4294967295).
  { rewrite reserved_unfold, !orb_true_iff, !andb_true_iff, !Z.eqb_eq,
      !Z.leb_le. lia. }
  split.
  - rewrite <- Hiff. split; congruence.
  - rewrite <- Hiff. rewrite not_true_iff_false. split; congruence.
Qed.

Lemma bogon_asn_set_witness :
  (is_bogon_asn (AsnStr "AS4200000000") = Ok true <->
   4200000000 = 0 \/ 4200000000 = 112 \/ 4200000000 = 23456
   \/ 64496 <= 4200000000 <= 131071
   \/ 4200000000 <= 4200000000 <= 4294967295)
  /\ (is_bogon_asn (AsnStr "AS4200000000") = Ok false <->
      ~ (4200000000 = 0 \/ 4200000000 = 112 \/ 4200000000 = 23456
         \/ 64496 <= 4200000000 <= 131071
         \/ 4200000000 <= 4200000000 <= 4294967295)).
Proof.
  apply (bogon_asn_set (AsnStr "AS4200000000") 4200000000).
  vm_compute. reflexivity.
Defined.

(** X2. What lies inside a bogon is a bogon: when a network is classified
    as a bogon, so is every network of the same family, without zone
    identifier, whose addresses all belong to it. *)
Theorem sub_prefix_of_bogon_is_bogon (p q : string) (P Q : IPNetwork) :
  ip_network p = Ok P ->
  ip_network q = Ok Q ->
  net_family Q = net_family P ->
  _scope_id (network_address Q) = None ->
  covers P Q ->
  is_bogon_pfx p = Ok true ->
  is_bogon_pfx q = Ok true.
Proof.
  intros HP HQ Hf Hscope Hcov Hbogon.
  rewrite (is_bogon_pfx_value p P HP) in Hbogon.
  rewrite (is_bogon_pfx_value q Q HQ). f_equal.
  injection Hbogon as Hbogon. rewrite Hf.
  apply existsb_exists in Hbogon as (sp & Hin & Hsub).
  apply existsb_exists. exists sp. split; [exact Hin|].
  destruct (registry_entries _ sp Hin) as (_ & _ & Hssp).
  pose proof (ip_network_wf p P HP) as HwP.
  pose proof (ip_network_wf q Q HQ) as HwQ.
  apply (is_subnetb_bounds P sp Hssp) in Hsub as [Hlo Hhi].
  apply (is_subnetb_bounds Q sp Hssp). rewrite Hscope.
  destruct (covers_bounds Q P HwQ HwP Hcov) as [Hlo' Hhi'].
  destruct (_scope_id (network_address P)); lia.
Qed.

Lemma sub_prefix_of_bogon_is_bogon_witness :
  is_bogon_pfx "172.16.5.0/24" = Ok true.
Proof.
  apply (sub_prefix_of_bogon_is_bogon "172.16.0.0/13"%string
           "172.16.5.0/24"%string
           (mkNetwork (mkAddress V4 2886729728 None) 13)
           (mkNetwork (mkAddress V4 2886731008 None) 24)).
  - vm_compute. reflexivity.
  - vm_compute. reflexivity.
  - reflexivity.
  - reflexivity.
  - apply (subnet_of_iff_covers (mkNetwork (mkAddress V4 2886731008 None) 24)
             (mkNetwork (mkAddress V4 2886729728 None) 13)).
    + apply wf_networkb_wf. vm_compute. reflexivity.
    + apply wf_networkb_wf. vm_compute. reflexivity.
    + reflexivity.
    + reflexivity.
    + reflexivity.
    + vm_compute. reflexivity.
  - vm_compute. reflexivity.
Defined.

(** *** Addresses written without a prefix length *)

Lemma decimal_from_nonneg (ds : string) (acc : Z) :
  Py.all_digits ds = true -> 0 <= acc -> 0 <= decimal_from acc ds.
Proof.
  revert acc. induction ds as [|c ds IH]; intros acc; simpl; [auto|].
  intros [Hc Hds]%andb_prop Hacc. apply (IH _ Hds).
  assert (48 <= Z.of_N (Py.ord c)).
  { unfold Py.isdigit_char, Py.in_range in Hc.
    apply andb_prop in Hc as [Hlo _]. apply N.leb_le in Hlo. lia. }
  lia.
Qed.

Lemma parse_octet_range (o : string) (v : Z) :
  _parse_octet o = Ok v -> 0 <= v <= 255.
Proof.
  unfold _parse_octet. destruct (is_empty o); [discriminate|].
  destruct (Py.isascii_isdigit o) eqn:Hd; simpl; [|discriminate].
  destruct (3 <? String.length o)%nat eqn:Hlen; [discriminate|].
  destruct (negb (String.eqb o "0") && starts_with "0" o); [discriminate|].
  apply Nat.ltb_ge in Hlen.
  rewrite (int_of_digits o Hd) by (unfold Py.int_max_str_digits; lia).
  simpl. destruct (Z.ltb_spec 255 (decimal_value o)); [discriminate|].
  intros [= <-]. split; [|lia].
  apply decimal_from_nonneg; [|lia].
  destruct o; [discriminate|exact Hd].
Qed.

Lemma from_octets_range (octets : list string) (acc v : Z) :
  from_octets acc octets = Ok v ->
  0 <= acc ->
  acc * 256 ^ Z.of_nat (List.length octets) <= v
  < (acc + 1) * 256 ^ Z.of_nat (List.length octets).
Proof.
  revert acc. induction octets as [|o octets IH]; intros acc.
  - simpl. intros [= <-] _. lia.
  - cbn [from_octets]. intros H Hacc.
    apply bind_Ok_inv in H as (x & Hx & H).
    apply parse_octet_range in Hx.
    apply IH in H; [|lia].
    replace (Z.of_nat (List.length (o :: octets)))
      with (Z.succ (Z.of_nat (List.length octets)))
      by (simpl List.length; lia).
    rewrite Z.pow_succ_r by lia.
    assert (0 < 256 ^ Z.of_nat (List.length octets))
      by (apply Z.pow_pos_nonneg; lia).
    nia.
Qed.

Lemma IPv4Address_range (s : string) (a : IPAddress) :
  IPv4Address s = Ok a -> 0 <= _ip a < 2 ^ 32.
Proof.
  unfold IPv4Address. destruct (Py.contains "/" s); [discriminate|].
  intros H. apply bind_Ok_inv in H as (ip & Hip & [= <-]). simpl.
  unfold v4_ip_int_from_string in Hip.
  destruct (is_empty s); [discriminate|].
  destruct (List.length (Py.split "." s) =? 4)%nat eqn:Hlen; simpl in Hip;
    [|discriminate].
  apply Nat.eqb_eq in Hlen.
  destruct (from_octets 0 (Py.split "." s)) as [v|e] eqn:Hoct; simpl in Hip.
  - injection Hip as <-. apply from_octets_range in Hoct; [|lia].
    rewrite Hlen in Hoct. simpl in Hoct. lia.
  - destruct (isinstance_ValueError e); discriminate.
Qed.

(** An IPv4 address alone is read as the network of that one host. *)
Lemma bare_IPv4Address_network (s : string) (a : IPAddress) :
  IPv4Address s = Ok a -> ip_network s = Ok (mkNetwork a 32).
Proof.
  intros Ha. pose proof (IPv4Address_range s a Ha) as Hr.
  pose proof (IPv4Address_shape s a Ha) as [Hf _].
  assert (Hslash : Py.contains "/" s = false).
  { unfold IPv4Address in Ha. destruct (Py.contains "/" s);
      [discriminate|reflexivity]. }
  unfold ip_network, ip_network_strict, IPv4Network, _split_addr_prefix,
    _split_optional_netmask.
  rewrite (split_no_sep "/" s Hslash). simpl bind. rewrite Ha. simpl bind.
  unfold check_host_bits. rewrite Hf. change IPV4LENGTH with 32.
  rewrite (netmask_value V4 32) by (change (width V4) with 32; lia).
  change (width V4) with 32. change (32 - 32) with 0.
  rewrite (land_high_mask (_ip a) 32 0) by lia.
  change (2 ^ 0) with 1.
  rewrite Z.mod_1_r, Z.sub_0_r, Z.eqb_refl. reflexivity.
Qed.

Lemma host_network_bounds (a : IPAddress) :
  wf_network (mkNetwork a 32) -> addr_family a = V4 ->
  first_ip (mkNetwork a 32) = _ip a /\ last_ip (mkNetwork a 32) = _ip a.
Proof.
  intros Hwf Hf. split; [reflexivity|].
  rewrite (last_ip_eq _ Hwf). unfold host_bits, first_ip, net_family.
  simpl. rewrite Hf. change (width V4 - 32) with 0. simpl. lia.
Qed.

(** X3. An IPv4 address given without prefix length is classified as the
    host network of that address: it is a bogon exactly when the address
    belongs to one of the networks of the IPv4 table. *)
Theorem bare_ipv4_address_is_classified (s : string) (a : IPAddress) :
  IPv4Address s = Ok a ->
  exists b : bool,
    is_bogon_pfx s = Ok b
    /\ (b = true <->
        exists sp, In sp SPECIAL_IPV4_NETWORKS /\ in_network (_ip a) sp).
Proof.
  intros Ha. pose proof (bare_IPv4Address_network s a Ha) as Hnet.
  pose proof (IPv4Address_shape s a Ha) as [Hf Hs].
  pose proof (ip_network_wf _ _ Hnet) as Hwf.
  destruct (host_network_bounds a Hwf Hf) as [Hfirst Hlast].
  rewrite (is_bogon_pfx_value s _ Hnet).
  unfold net_family. simpl network_address. rewrite Hf. simpl registry.
  eexists. split; [reflexivity|].
  rewrite existsb_exists.
  split; intros (sp & Hin & H); exists sp; (split; [exact Hin|]);
    destruct (registry_entries V4 sp Hin) as (_ & Hwsp & Hssp).
  - apply (is_subnetb_bounds _ sp Hssp) in H. simpl network_address in H.
    rewrite Hs, Hfirst, Hlast in H.
    apply (in_network_range sp _ Hwsp). lia.
  - apply (is_subnetb_bounds _ sp Hssp). simpl network_address.
    rewrite Hs, Hfirst, Hlast.
    apply (in_network_range sp _ Hwsp) in H. lia.
Qed.

Lemma bare_ipv4_address_is_classified_witness :
  exists b : bool,
    is_bogon_pfx "8.8.8.8" = Ok b
    /\ (b = true <->
        exists sp, In sp SPECIAL_IPV4_NETWORKS /\ in_network 134744072 sp).
Proof.
  apply (bare_ipv4_address_is_classified "8.8.8.8"%string
           (mkAddress V4 134744072 None)).
  vm_compute. reflexivity.
Defined.

(** X4. A literal with a zone identifier is a bogon exactly when an entry
    of the IPv6 table ends no earlier than the network and starts strictly
    before it: an entry that starts at the very address of the network does
    not count, because the comparison of addresses takes the zone into
    account. So "fe80::%eth0/10" and "fe80::%eth0" are not bogons, while
    "fe80::/10" and "fe80::1%eth0" are. *)
Theorem zone_identifier_needs_earlier_start :
  (forall (prefix : string) (P : IPNetwork) (z : string),
      ip_network prefix = Ok P ->
      _scope_id (network_address P) = Some z ->
      exists b : bool,
        is_bogon_pfx prefix = Ok b
        /\ (b = true <->
            exists sp, In sp SPECIAL_IPV6_NETWORKS
                       /\ first_ip sp < first_ip P
                       /\ last_ip P <= last_ip sp))
  /\ is_bogon_pfx "fe80::/10" = Ok true
  /\ is_bogon_pfx "fe80::%eth0/10" = Ok false
  /\ is_bogon_pfx "fe80::%eth0" = Ok false
  /\ is_bogon_pfx "fe80::1%eth0" = Ok true.
Proof.
  split; [|repeat split; vm_compute; reflexivity].
  intros prefix P z HP Hz.
  pose proof (ip_network_wf prefix P HP) as (_ & _ & Hv4).
  assert (Hf : net_family P = V6).
  { destruct (net_family P); [|reflexivity].
    rewrite (Hv4 eq_refl) in Hz. discriminate Hz. }
  rewrite (is_bogon_pfx_value prefix P HP), Hf. simpl registry.
  eexists. split; [reflexivity|].
  rewrite existsb_exists.
  split; intros (sp & Hin & H); exists sp; (split; [exact Hin|]);
    destruct (registry_entries V6 sp Hin) as (_ & _ & Hssp).
  - apply (is_subnetb_bounds P sp Hssp) in H. rewrite Hz in H. exact H.
  - apply (is_subnetb_bounds P sp Hssp). rewrite Hz. exact H.
Qed.

Lemma zone_identifier_needs_earlier_start_witness :
  exists b : bool,
    is_bogon_pfx "fc00::%1/7" = Ok b
    /\ (b = true <->
        exists sp,
          In sp SPECIAL_IPV6_NETWORKS
          /\ first_ip sp
             < first_ip
                 (mkNetwork
                    (mkAddress V6 334965454937798799971759379190646833152
                       (Some "1"%string)) 7)
          /\ last_ip
               (mkNetwork
                  (mkAddress V6 334965454937798799971759379190646833152
                     (Some "1"%string)) 7)
             <= last_ip sp).
Proof.
  apply (proj1 zone_identifier_needs_earlier_start "fc00::%1/7"%string
           (mkNetwork
              (mkAddress V6 334965454937798799971759379190646833152
                 (Some "1"%string)) 7) "1"%string).
  - vm_compute. reflexivity.
  - reflexivity.
Defined.

(** X5. The table is scanned entry by entry: every IPv4 address from
    224.0.0.0 on is a bogon, yet the network 224.0.0.0/3, which consists of
    exactly these addresses, is not, because it lies in the union of
    224.0.0.0/4 and 240.0.0.0/4 and in neither of them. *)
Theorem union_of_entries_is_not_flagged :
  (forall (s : string) (a : IPAddress),
      IPv4Address s = Ok a ->
      3758096384 <= _ip a ->
      is_bogon_pfx s = Ok true)
  /\ (exists N : IPNetwork,
        ip_network "224.0.0.0/3" = Ok N
        /\ (forall x : Z, in_network x N <-> 3758096384 <= x <= 4294967295)
        /\ is_bogon_pfx "224.0.0.0/3" = Ok false).
Proof.
  split.
  - intros s a Ha Hlo.
    pose proof (IPv4Address_range s a Ha) as Hr.
    destruct (bare_ipv4_address_is_classified s a Ha) as (b & Hb & Hiff).
    rewrite Hb. f_equal. apply Hiff.
    assert (Hm : wf_network (mkNetwork (mkAddress V4 3758096384 None) 4)
                 /\ In (mkNetwork (mkAddress V4 3758096384 None) 4)
                      SPECIAL_IPV4_NETWORKS).
    { split; [apply wf_networkb_wf; vm_compute; reflexivity|].
      vm_compute. tauto. }
    assert (Hrv : wf_network (mkNetwork (mkAddress V4 4026531840 None) 4)
                  /\ In (mkNetwork (mkAddress V4 4026531840 None) 4)
                       SPECIAL_IPV4_NETWORKS).
    { split; [apply wf_networkb_wf; vm_compute; reflexivity|].
      vm_compute. tauto. }
    destruct (Z.lt_ge_cases (_ip a) 4026531840) as [Hlt|Hge].
    + exists (mkNetwork (mkAddress V4 3758096384 None) 4).
      split; [apply Hm|]. apply (in_network_range _ _ (proj1 Hm)).
      change (3758096384 <= _ip a <= 4026531839). lia.
    + exists (mkNetwork (mkAddress V4 4026531840 None) 4).
      split; [apply Hrv|]. apply (in_network_range _ _ (proj1 Hrv)).
      change (4026531840 <= _ip a <= 4294967295).
      change (2 ^ 32) with 4294967296 in Hr. lia.
  - exists (mkNetwork (mkAddress V4 3758096384 None) 3).
    split; [vm_compute; reflexivity|]. split; [|vm_compute; reflexivity].
    intros x.
    assert (Hwf : wf_network (mkNetwork (mkAddress V4 3758096384 None) 3))
      by (apply wf_networkb_wf; vm_compute; reflexivity).
    rewrite (in_network_range _ x Hwf).
    change (3758096384 <= x <= 4294967295 <-> 3758096384 <= x <= 4294967295).
    tauto.
Qed.

Lemma union_of_entries_is_not_flagged_witness :
  is_bogon_pfx "239.255.255.250" = Ok true.
Proof.
  apply (proj1 union_of_entries_is_not_flagged "239.255.255.250"%string
           (mkAddress V4 4026531834 None)).
  - vm_compute. reflexivity.
  - simpl. lia.
Defined.

End MoreOnClassifiers.

(** ** The run context (kartograf/context.py) *)

(** ** Paths *)

Section Paths.

Import PyMore pathlib.

Ltac each_char :=
  intros [[] [] [] [] [] [] [] []]; vm_compute;
  try reflexivity; try discriminate; auto.

Lemma split_pieces (sep : ascii) (s p : string) :
  In p (Py.split sep s) -> Py.contains sep p = false.
Proof.
  revert p. induction s as [|c s IH]; simpl; intros p.
  - intros [<-|[]]. reflexivity.
  - destruct (Ascii.eqb c sep) eqn:Hc.
    + intros [<-|H]; [reflexivity|apply IH, H].
    + destruct (Py.split sep s) as [|q qs].
      * intros [<-|[]]. simpl. rewrite Hc. reflexivity.
      * intros [<-|H].
        -- simpl. rewrite Hc. apply IH. left. reflexivity.
        -- apply IH. right. exact H.
Qed.

Lemma slash_head (c : ascii) (x : string) :
  Ascii.eqb c "/" = false -> splitroot (String c x) = (EmptyString, String c x).
Proof. revert c. each_char. Qed.


Lemma appended_entry (x : string) :
  entry_name x = true -> appended x = [x].
Proof.
  unfold entry_name, appended. intros [Hk Hs]%andb_prop.
  apply negb_true_iff in Hs. rewrite Hs, Hk. reflexivity.
Qed.

Lemma entry_not_empty (x : string) :
  entry_name x = true -> is_empty x = false.
Proof.
  unfold entry_name, kept. intros [[H _]%andb_prop _]%andb_prop.
  apply negb_true_iff, H.
Qed.


(** What a part contributes is made of components. *)
Lemma appended_entries (rel : string) :
  forallb entry_name (appended rel) = true.
Proof.
  unfold appended. destruct (Py.contains "/" rel) eqn:Hs.
  - apply forallb_forall. intros x [Hx Hk]%filter_In.
    apply in_rev in Hx. unfold entry_name.
    rewrite Hk, (split_pieces _ _ _ Hx). reflexivity.
  - destruct (kept rel) eqn:Hk; [|reflexivity].
    simpl. unfold entry_name. rewrite Hk, Hs. reflexivity.
Qed.

Lemma splitroot_roots (part : string) :
  fst (splitroot part) = EmptyString /\ snd (splitroot part) = part
  \/ (fst (splitroot part) = "/"%string
      \/ fst (splitroot part) = "//"%string).
Proof.
  destruct part as [|c x]; [left; split; reflexivity|].
  destruct (Ascii.eqb c "/") eqn:Hc.
  - apply Ascii.eqb_eq in Hc. subst c. right. unfold splitroot.
    destruct (_ =? 2)%nat; simpl; auto.
  - left. rewrite (slash_head _ _ Hc). split; reflexivity.
Qed.

Lemma splitroot_of_root (root : string) :
  root = "/"%string \/ root = "//"%string ->
  is_empty root = false /\ splitroot root = (root, EmptyString).
Proof. intros [->| ->]; split; reflexivity. Qed.

(** [Path(s)], read off the one part. *)
Lemma of_str_eq (s : string) :
  of_str s =
  mkPath (fst (splitroot s))
    ((if negb (is_empty (fst (splitroot s))) then [fst (splitroot s)] else [])
     ++ rev (appended (snd (splitroot s)))).
Proof.
  unfold of_str, parse_parts. simpl rev.
  destruct s as [|c x]; [reflexivity|].
  cbn [parse_loop is_empty].
  destruct (splitroot (String c x)) as [root rel]. cbn [fst snd].
  destruct root as [|d root]; cbn [is_empty negb].
  - reflexivity.
  - simpl app. rewrite rev_app_distr. reflexivity.
Qed.

Lemma parts_of_str (s : string) :
  forallb entry_name (rev (appended (snd (splitroot s)))) = true.
Proof.
  apply forallb_forall. intros x Hx%in_rev.
  pose proof (appended_entries (snd (splitroot s))) as H.
  rewrite forallb_forall in H. apply H, Hx.
Qed.





End Paths.

Section PathText.

Import PyMore pathlib.

Lemma split_app_sep (sep : ascii) (p t : string) :
  Py.contains sep p = false ->
  Py.split sep (p ++ String sep t) = p :: Py.split sep t.
Proof.
  induction p as [|c p IH]; simpl.
  - intros _. rewrite Ascii.eqb_refl. reflexivity.
  - intros [Hc Hp]%orb_false_elim. rewrite Hc, (IH Hp). reflexivity.
Qed.

Lemma contains_app_sep (sep : ascii) (p t : string) :
  Py.contains sep (p ++ String sep t) = true.
Proof.
  induction p as [|c p IH]; simpl.
  - rewrite Ascii.eqb_refl. reflexivity.
  - rewrite IH. apply orb_true_r.
Qed.

Lemma entry_no_slash (x : string) :
  entry_name x = true -> Py.contains "/" x = false.
Proof.
  unfold entry_name. intros [_ H]%andb_prop. apply negb_true_iff, H.
Qed.

Lemma entry_kept (x : string) : entry_name x = true -> kept x = true.
Proof. unfold entry_name. intros [H _]%andb_prop. exact H. Qed.

Lemma join_cons (c c' : string) (cs : list string) :
  join "/" (c :: c' :: cs) = (c ++ String "/" (join "/" (c' :: cs)))%string.
Proof. reflexivity. Qed.

(** [split] undoes [join]. *)
Lemma split_join (cs : list string) :
  cs <> [] -> forallb entry_name cs = true ->
  Py.split "/" (join "/" cs) = cs.
Proof.
  induction cs as [|c cs IH]; [congruence|]. intros _ Hcs.
  cbn [forallb] in Hcs. apply andb_prop in Hcs as [Hc Hcs].
  destruct cs as [|c' cs].
  - simpl. apply split_no_sep, entry_no_slash, Hc.
  - rewrite join_cons, split_app_sep by (apply entry_no_slash, Hc).
    rewrite IH by (congruence || exact Hcs). reflexivity.
Qed.

Lemma filter_kept_entries (cs : list string) :
  forallb entry_name cs = true -> filter kept cs = cs.
Proof.
  induction cs as [|c cs IH]; simpl; [reflexivity|].
  intros [Hc Hcs]%andb_prop. rewrite (entry_kept _ Hc), (IH Hcs).
  reflexivity.
Qed.

Lemma forallb_rev (cs : list string) :
  forallb entry_name cs = true -> forallb entry_name (rev cs) = true.
Proof.
  rewrite !forallb_forall. intros H x Hx%in_rev. apply H, Hx.
Qed.

(** The joined components are parsed into the components. *)
Lemma appended_join (cs : list string) :
  forallb entry_name cs = true -> appended (join "/" cs) = rev cs.
Proof.
  intros Hcs. destruct cs as [|c [|c' cs]].
  - reflexivity.
  - simpl in Hcs. apply andb_prop in Hcs as [Hc _].
    simpl. apply appended_entry, Hc.
  - unfold appended. rewrite join_cons at 1. rewrite contains_app_sep.
    rewrite split_join by (congruence || exact Hcs).
    apply filter_kept_entries, forallb_rev, Hcs.
Qed.

(** The joined components do not start with a slash. *)
Lemma join_head (cs : list string) :
  forallb entry_name cs = true ->
  lstrip_sep (join "/" cs) = join "/" cs
  /\ splitroot (join "/" cs) = (EmptyString, join "/" cs).
Proof.
  intros Hcs. destruct cs as [|c cs]; [split; reflexivity|].
  cbn [forallb] in Hcs. apply andb_prop in Hcs as [Hc _].
  pose proof (entry_not_empty _ Hc) as Hne.
  pose proof (entry_no_slash _ Hc) as Hns.
  destruct c as [|x c]; [discriminate Hne|].
  simpl in Hns. apply orb_false_elim in Hns as [Hx _].
  assert (Hj : exists rest, join "/" (String x c :: cs) = String x rest).
  { destruct cs; simpl; eauto. }
  destruct Hj as [rest ->]. split.
  - simpl. rewrite Hx. reflexivity.
  - apply slash_head, Hx.
Qed.

Lemma splitroot_rooted (root : string) (cs : list string) :
  root = "/"%string \/ root = "//"%string ->
  forallb entry_name cs = true ->
  splitroot (root ++ join "/" cs) = (root, join "/" cs).
Proof.
  intros Hroot Hcs. destruct (join_head cs Hcs) as [Hl _].
  destruct Hroot as [->| ->]; unfold splitroot; simpl append;
    cbn [lstrip_sep Ascii.eqb Bool.eqb]; rewrite Hl; simpl String.length.
  - replace (S (String.length (join "/" cs)) - String.length (join "/" cs))%nat
      with 1%nat by lia. reflexivity.
  - replace (S (S (String.length (join "/" cs)))
             - String.length (join "/" cs))%nat
      with 2%nat by lia. reflexivity.
Qed.

Lemma of_str_well_formed (s : string) : well_formed (of_str s).
Proof.
  rewrite of_str_eq. split; cbn [_root _parts].
  - destruct (splitroot_roots s) as [[H _]|H]; auto.
  - exists (rev (appended (snd (splitroot s)))). split; [|reflexivity].
    apply parts_of_str.
Qed.

Lemma truediv_well_formed (p : Path) (key : string) :
  well_formed p -> well_formed (truediv p key).
Proof.
  intros [Hroot (cs & Hcs & Hparts)]. unfold truediv.
  change (parse_parts [key]) with (of_str key).
  destruct (of_str_well_formed key) as [Hroot' (cs' & Hcs' & Hparts')].
  destruct (negb (is_empty (_root (of_str key)))) eqn:Hk.
  - split; [exact Hroot'|]. exists cs'. rewrite Hk. auto.
  - split; [exact Hroot|]. cbn [_root _parts]. exists (cs ++ cs'). split.
    + rewrite forallb_app, Hcs, Hcs'. reflexivity.
    + rewrite Hparts, Hparts'. cbn [app]. rewrite app_assoc. reflexivity.
Qed.

(** [Path(str(p))] is [p]. *)
Lemma of_str_str (p : Path) : well_formed p -> of_str (str p) = p.
Proof.
  destruct p as [root parts]. intros [Hroot (cs & Hcs & Hparts)].
  cbn [_root _parts] in *. subst parts. unfold str. cbn [_root _parts].
  destruct Hroot as [->|Hroot].
  - cbn [is_empty negb app].
    destruct (is_empty (join "/" cs)) eqn:He.
    + destruct cs as [|c cs]; [reflexivity|].
      cbn [forallb] in Hcs. apply andb_prop in Hcs as [Hc _].
      pose proof (entry_not_empty _ Hc) as Hne.
      destruct c; [discriminate Hne|]. destruct cs; discriminate He.
    + rewrite of_str_eq. destruct (join_head cs Hcs) as [_ ->].
      cbn [fst snd is_empty negb app].
      rewrite (appended_join cs Hcs), rev_involutive. reflexivity.
  - destruct (splitroot_of_root _ Hroot) as [Hne _].
    rewrite Hne. cbn [negb app tl].
    assert (Hs : is_empty (root ++ join "/" cs) = false)
      by (destruct Hroot as [->| ->]; reflexivity).
    rewrite Hs, of_str_eq, (splitroot_rooted root cs Hroot Hcs).
    cbn [fst snd]. rewrite Hne. cbn [negb].
    rewrite (appended_join cs Hcs), rev_involutive. reflexivity.
Qed.

(** For every path made of a text and any number of joined parts, the path
    of its text is the path itself. *)
Lemma path_of_text_of_path (s : string) (keys : list string) :
  of_str (str (fold_left truediv keys (of_str s)))
  = fold_left truediv keys (of_str s).
Proof.
  apply of_str_str.
  generalize (of_str_well_formed s). generalize (of_str s).
  induction keys as [|k keys IH]; intros p Hp; simpl; [exact Hp|].
  apply IH, truediv_well_formed, Hp.
Qed.

(** The text of a directory one or two levels below [base / a / b],
    computed from the text of [base / a / b], is the text of the path
    joined in one go. *)
Lemma sub_of_sub2 (base a b c d : string) :
  context.sub (context.sub2 base a b) c
  = str (truediv (truediv (truediv (of_str base) a) b) c)
  /\ context.sub2 (context.sub2 base a b) c d
     = str (truediv (truediv (truediv (truediv (of_str base) a) b) c) d).
Proof.
  pose proof (path_of_text_of_path base [a; b]) as H.
  cbn [fold_left] in H.
  unfold context.sub, context.sub2. rewrite H. split; reflexivity.
Qed.

End PathText.

(** ** Decimal numerals *)

Section Decimal.

Import PyMore.

Lemma digit_char_spec (d : Z) :
  0 <= d < 10 ->
  Py.isdigit_char (digit_char d) = true
  /\ Z.of_N (Py.ord (digit_char d)) - 48 = d.
Proof.
  intros H.
  assert (Hd : d = 0 \/ d = 1 \/ d = 2 \/ d = 3 \/ d = 4 \/ d = 5 \/ d = 6
               \/ d = 7 \/ d = 8 \/ d = 9) by lia.
  repeat (destruct Hd as [->|Hd]; [split; reflexivity|]).
  subst d. split; reflexivity.
Qed.

Lemma string_app_assoc (s t u : string) :
  ((s ++ t) ++ u = s ++ (t ++ u))%string.
Proof. induction s as [|c s IH]; simpl; congruence. Qed.

Lemma string_length_app (s t : string) :
  String.length (s ++ t) = (String.length s + String.length t)%nat.
Proof. induction s as [|c s IH]; simpl; congruence. Qed.

Lemma all_digits_app (s t : string) :
  Py.all_digits (s ++ t) = Py.all_digits s && Py.all_digits t.
Proof.
  induction s as [|c s IH]; simpl; [reflexivity|].
  rewrite IH, andb_assoc. reflexivity.
Qed.

Lemma decimal_from_app (s t : string) (acc : Z) :
  decimal_from acc (s ++ t) = decimal_from (decimal_from acc s) t.
Proof.
  revert acc. induction s as [|c s IH]; intros acc; simpl; [reflexivity|].
  apply IH.
Qed.

(** The digits written for [n] in front of [acc]: a numeral of [n]. *)
Lemma digits_aux_spec (fuel : nat) :
  forall n, 0 <= n < 10 ^ Z.of_nat fuel ->
  exists s,
    (forall acc, digits_aux fuel n acc = (s ++ acc)%string)
    /\ Py.all_digits s = true
    /\ forall a, decimal_from a s = a * 10 ^ Z.of_nat (String.length s) + n.
Proof.
  induction fuel as [|fuel IH]; intros n Hn.
  - exists EmptyString. simpl in *. repeat split; auto. intros a. lia.
  - assert (Hd : 0 <= n mod 10 < 10) by (apply Z.mod_pos_bound; lia).
    destruct (digit_char_spec _ Hd) as [Hdig Hval].
    cbn [digits_aux]. destruct (n / 10 =? 0) eqn:Hq.
    + apply Z.eqb_eq in Hq.
      exists (String (digit_char (n mod 10)) EmptyString).
      repeat split.
      * simpl. rewrite Hdig. reflexivity.
      * intros a. simpl. rewrite Hval.
        pose proof (Z.div_mod n 10). lia.
    + assert (Hn' : 0 <= n / 10 < 10 ^ Z.of_nat fuel).
      { split; [apply Z.div_pos; lia|].
        apply Z.div_lt_upper_bound; [lia|].
        rewrite Nat2Z.inj_succ, Z.pow_succ_r in Hn by lia. lia. }
      destruct (IH _ Hn') as (s & Hs & Hall & Hdec).
      exists (s ++ String (digit_char (n mod 10)) EmptyString)%string.
      repeat split.
      * intros acc. rewrite Hs, string_app_assoc. reflexivity.
      * rewrite all_digits_app, Hall. simpl. rewrite Hdig. reflexivity.
      * intros a. rewrite decimal_from_app, Hdec. simpl. rewrite Hval.
        rewrite string_length_app. simpl String.length.
        rewrite Nat.add_1_r, Nat2Z.inj_succ, Z.pow_succ_r by lia.
        pose proof (Z.div_mod n 10). lia.
Qed.

Lemma enough_fuel (n : Z) :
  0 <= n -> n < 10 ^ Z.of_nat (S (Z.to_nat (Z.log2 n))).
Proof.
  intros Hn. rewrite Nat2Z.inj_succ, Z2Nat.id by apply Z.log2_nonneg.
  destruct (Z.eq_dec n 0) as [->|Hz]; [reflexivity|].
  assert (Hlt : n < 2 ^ Z.succ (Z.log2 n)) by (apply Z.log2_spec; lia).
  assert (Hle : 2 ^ Z.succ (Z.log2 n) <= 10 ^ Z.succ (Z.log2 n)).
  { apply Z.pow_le_mono_l. lia. }
  lia.
Qed.

Lemma digits_not_empty (fuel : nat) (n : Z) (acc : string) :
  is_empty (digits_aux (S fuel) n acc) = false.
Proof.
  assert (H : forall f m a, is_empty a = false ->
                            is_empty (digits_aux f m a) = false).
  { induction f as [|f IH]; intros m a Ha; simpl; [exact Ha|].
    destruct (m / 10 =? 0); [reflexivity|]. apply IH. reflexivity. }
  cbn [digits_aux]. destruct (n / 10 =? 0); [reflexivity|].
  apply H. reflexivity.
Qed.

(** [str(n)] of a natural number is a numeral of it. *)
Lemma digits_spec (n : Z) :
  0 <= n ->
  Py.isascii_isdigit (digits n) = true /\ decimal_value (digits n) = n.
Proof.
  intros Hn. unfold digits.
  destruct (digits_aux_spec _ n (conj Hn (enough_fuel n Hn)))
    as (s & Hs & Hall & Hdec).
  pose proof (digits_not_empty (Z.to_nat (Z.log2 n)) n EmptyString) as Hne.
  rewrite Hs in *. rewrite append_empty_r in *.
  split.
  - destruct s; [discriminate Hne|exact Hall].
  - unfold decimal_value. rewrite Hdec. lia.
Qed.

(** [int] on a minus sign and at most 4300 decimal digits. *)
Lemma int_of_negative_digits (ds : string) :
  Py.isascii_isdigit ds = true ->
  (String.length ds <= Py.int_max_str_digits)%nat ->
  Py.int (String "-" ds) Py.Base10 = Ok (- decimal_value ds).
Proof.
  intros Hds Hlen. destruct ds as [|c ds]; [discriminate Hds|].
  unfold Py.isascii_isdigit in Hds.
  assert (Htr : Py.transform_space_to_ascii (String "-" (String c ds))
                = String "-" (String c ds)).
  { change (Py.transform_space_to_ascii (String "-" (String c ds)))
      with (String "-" (Py.transform_space_to_ascii (String c ds))).
    rewrite (transform_digits _ Hds). reflexivity. }
  unfold Py.int. rewrite Htr.
  change (Py.skip_c_space (String "-" (String c ds)))
    with (String "-" (String c ds)).
  change (Py.strip_sign (String "-" (String c ds))) with (-1, String c ds).
  cbv beta iota.
  pose proof Hds as Hds'. simpl in Hds'. apply andb_prop in Hds' as [Hc _].
  destruct (int_head_digit c Hc) as (Hsp & Hplus & Hminus & Hus).
  assert (Hpre : Py.strip_base_prefix Py.Base10 (String c ds) = String c ds)
    by reflexivity.
  rewrite Hpre.
  assert (Hnus : Py.starts_with_underscore (String c ds) = false).
  { revert Hus. clear. revert c.
    intros [[] [] [] [] [] [] [] []]; simpl; intros; try reflexivity;
      discriminate. }
  rewrite Hnus. rewrite (scan_digits_decimal _ 0 0 Hds).
  unfold Py.over_digit_limit.
  replace (Nat.ltb Py.int_max_str_digits (0 + String.length (String c ds)))
    with false by (symmetry; apply Nat.ltb_ge; simpl; simpl in Hlen; lia).
  simpl Nat.add. cbv iota. simpl Py.skip_c_space. cbv iota.
  unfold decimal_value. f_equal; lia.
Qed.

(** [int(str(n))] is [n]: what [str] writes for an integer, [int]
    reads back as that integer, and whenever [str] accepts the integer
    [int] accepts the numeral. *)
Lemma int_reads_back_str (n : Z) (e : string) :
  str_int n = Ok e -> Py.int e Py.Base10 = Ok n.
Proof.
  unfold str_int.
  destruct (Nat.ltb _ _) eqn:Hlen; [discriminate|].
  apply Nat.ltb_ge in Hlen. intros [= <-].
  destruct (digits_spec (Z.abs n) (Z.abs_nonneg n)) as [Hdig Hval].
  destruct (n <? 0) eqn:Hneg.
  - apply Z.ltb_lt in Hneg.
    rewrite (int_of_negative_digits _ Hdig Hlen), Hval. f_equal. lia.
  - apply Z.ltb_ge in Hneg.
    rewrite (int_of_digits _ Hdig Hlen), Hval. f_equal. lia.
Qed.

End Decimal.

(** ** The context of a run *)

Section RunContext.

Import context.

Lemma yields_ret {A : Type} (env : Env) (P : event -> Prop)
  (Q : outcome A -> Prop) (a : A) :
  Q (Done a) -> yields env P Q (ret a).
Proof.
  intros HQ h. exists []. simpl. rewrite app_nil_r. auto.
Qed.

Lemma yields_fail {A : Type} (env : Env) (P : event -> Prop)
  (Q : outcome A -> Prop) (f : failure) :
  Q (Failed f) -> yields env P Q (fail f).
Proof.
  intros HQ h. exists []. simpl. rewrite app_nil_r. auto.
Qed.

Lemma yields_call {A : Type} (env : Env) (P : event -> Prop)
  (Q : outcome A -> Prop) (e : event)
  (answer : Env -> list event -> outcome A) :
  P e -> (forall h, Q (answer env h)) -> yields env P Q (call e answer).
Proof.
  intros HP HQ h. exists [e]. simpl. auto.
Qed.

Lemma yields_lift_outcome {A : Type} (env : Env) (P : event -> Prop)
  (Q : outcome A -> Prop) (o : Env -> outcome A) :
  Q (o env) -> yields env P Q (lift_outcome o).
Proof.
  intros HQ h. exists []. simpl. rewrite app_nil_r. auto.
Qed.

Lemma yields_lift {A : Type} (env : Env) (P : event -> Prop)
  (Q : outcome A -> Prop) (r : result A) :
  (forall a, r = Ok a -> Q (Done a)) ->
  (forall e, r = Raise e -> Q (Failed (Builtin e))) ->
  yields env P Q (lift r).
Proof.
  intros HOk HRaise. destruct r as [a|e]; simpl.
  - apply yields_ret. auto.
  - apply yields_fail. auto.
Qed.

Lemma yields_bind {A B : Type} (env : Env) (P : event -> Prop)
  (Q1 : outcome A -> Prop) (Q2 : outcome B -> Prop)
  (m : M A) (k : A -> M B) :
  yields env P Q1 m ->
  (forall a, Q1 (Done a) -> yields env P Q2 (k a)) ->
  (forall f, Q1 (Failed f) -> Q2 (Failed f)) ->
  yields env P Q2 (mbind m k).
Proof.
  intros Hm Hk Hf h. destruct (Hm h) as (new1 & Htr & HP & HQ).
  unfold mbind. destruct (m env h) as [h1 [a|f]]; simpl in *; subst h1.
  - destruct (Hk a HQ (h ++ new1)) as (new2 & Htr2 & HP2 & HQ2).
    exists (new1 ++ new2). rewrite Htr2, app_assoc.
    split; [reflexivity|]. split; [|exact HQ2].
    apply Forall_app. auto.
  - exists new1. auto.
Qed.

Lemma yields_weaken {A : Type} (env : Env) (P P' : event -> Prop)
  (Q Q' : outcome A -> Prop) (m : M A) :
  yields env P Q m ->
  (forall e, P e -> P' e) -> (forall o, Q o -> Q' o) ->
  yields env P' Q' m.
Proof.
  intros Hm HP HQ h. destruct (Hm h) as (new & Htr & HPn & HQn).
  exists new. split; [exact Htr|]. split; [|auto].
  apply (Forall_impl _ HP HPn).
Qed.

(** What holds of every computation is read off a run. *)
Lemma yields_run (env : Env) (a : Namespace.t) (P : event -> Prop)
  (Q : outcome Context -> Prop) :
  yields env P Q (__init__ a) ->
  Forall P (fst (run env a)) /\ Q (snd (run env a)).
Proof.
  intros H. destruct (H []) as (new & Htr & HP & HQ).
  unfold run. rewrite Htr. auto.
Qed.

(** X6. In a reproduction run the two source flags the caller passed do
    not matter: they are overwritten by what the directory holds before
    they are read. *)
Theorem reproduction_ignores_flags (a : Namespace.t) (r : string)
  (irr routeviews : bool) (env : Env) :
  Namespace.reproduce a = Some r ->
  run env (with_flags a irr routeviews) = run env a.
Proof.
  intros Hr. destruct a as [w e rp i rv me d]. simpl in Hr. subst rp.
  reflexivity.
Qed.

Lemma reproduction_ignores_flags_witness :
  run (mkEnv (fun _ => 0) (fun _ => Done "/w"%string)
         (fun _ _ => Done ["irr"%string]) (fun _ _ => Done true)
         (fun _ _ => Done false) (fun _ _ => Done tt) (fun t => Done t))
      (with_flags
         (Namespace.mk None (Some "7"%string) (Some "/d"%string)
            false false 0 false) true true)
  = run (mkEnv (fun _ => 0) (fun _ => Done "/w"%string)
           (fun _ _ => Done ["irr"%string]) (fun _ _ => Done true)
           (fun _ _ => Done false) (fun _ _ => Done tt) (fun t => Done t))
        (Namespace.mk None (Some "7"%string) (Some "/d"%string)
           false false 0 false).
Proof.
  apply (reproduction_ignores_flags
           (Namespace.mk None (Some "7"%string) (Some "/d"%string)
              false false 0 false) "/d"%string).
  reflexivity.
Defined.

Ltac emit_step :=
  first
    [ apply yields_ret; exact I
    | apply yields_fail; exact I
    | apply yields_call; [exact I | intros; exact I]
    | apply yields_lift_outcome; exact I
    | apply yields_lift; intros; exact I
    | eapply (yields_bind _ _ (fun _ => True));
      [ | intros ? _; cbv beta | intros ? _; exact I ]
    | match goal with
      | |- yields _ _ _ (if ?c then _ else _) => destruct c
      | |- yields _ _ _ (let '(_, _) := ?x in _) => destruct x
      | |- yields _ _ _ (match ?x with _ => _ end) => destruct x
      end ].

Ltac emit_auto := repeat emit_step.

(** The loop over the entries only asks [is_dir] questions. *)
Lemma source_folders_loop_yields (env : Env) (P : event -> Prop)
  (r : string) (entries acc : list string) :
  (forall entry, P (IsDir (pathlib.str (full_path r entry)))) ->
  yields env P (fun _ => True) (source_folders_loop r entries acc).
Proof.
  intros HP. revert acc.
  induction entries as [|entry rest IH]; intros acc; simpl.
  - apply yields_ret. exact I.
  - eapply (yields_bind _ _ (fun _ => True)).
    + apply yields_call; [apply HP|intros; exact I].
    + intros d _. apply IH.
    + intros f _. exact I.
Qed.

(** The first step, the choice of the epoch, reads the clock at most. *)
Lemma choose_epoch_yields (env : Env) (P : event -> Prop) (a : Namespace.t) :
  P Time ->
  yields env P (fun _ => True)
    (if truthy (Namespace.wait a) then ret (the (Namespace.wait a))
     else if truthy (Namespace.epoch a) then ret (the (Namespace.epoch a))
     else
       mbind (call Time (fun env h => Done (time_time env h)))
         (fun t => lift (PyMore.str_int t))).
Proof.
  intros HP. destruct (truthy (Namespace.wait a)); [emit_auto|].
  destruct (truthy (Namespace.epoch a)); [emit_auto|].
  eapply (yields_bind _ _ (fun _ => True)).
  - apply yields_call; [exact HP|intros; exact I].
  - intros t _. emit_auto.
  - intros f _. exact I.
Qed.

(** [_set_epoch_dirs] talks to nobody, and in a reproduction run it puts an
    r before the epoch. *)
Lemma set_epoch_dirs_yields (env : Env) (P : event -> Prop)
  (reproduce : bool) (epoch : string) (args_epoch : option string) :
  yields env P
    (fun o => forall dirs, o = Done dirs ->
                reproduce = true -> fst dirs = String "r" epoch)
    (_set_epoch_dirs reproduce epoch args_epoch).
Proof.
  unfold _set_epoch_dirs. destruct reproduce; [destruct epoch as [|c epoch]|].
  - simpl andb. cbv iota.
    eapply (yields_bind _ _ (fun o => not_done o)).
    + apply yields_lift.
      * intros t H. vm_compute in H. discriminate H.
      * intros e _ t [=].
    + intros t H. exfalso. exact (H t eq_refl).
    + intros f _ dirs [=].
  - simpl andb. cbv iota.
    eapply (yields_bind _ _ (fun _ => True)).
    + emit_auto.
    + intros t _. eapply (yields_bind _ _ (fun _ => True)).
      * emit_auto.
      * intros d _. apply yields_ret. intros dirs [= <-] _. reflexivity.
      * intros f _ dirs [=].
    + intros f _ dirs [=].
  - simpl andb. cbv iota.
    eapply (yields_bind _ _ (fun _ => True)).
    + emit_auto.
    + intros t _. eapply (yields_bind _ _ (fun _ => True)).
      * emit_auto.
      * intros d _. apply yields_ret. intros dirs _ [=].
      * intros f _ dirs [=].
    + intros f _ dirs [=].
Qed.

(** The second step of a reproduction run: the listing of the directory and
    the test of every entry; the arguments that result are built from the
    list of folders found. *)
Lemma detect_sources_yields (env : Env) (P : event -> Prop) (r : string)
  (k : list string -> Namespace.t) :
  P (Listdir (pathlib.str (pathlib.of_str r))) ->
  (forall entry, P (IsDir (pathlib.str (full_path r entry)))) ->
  yields env P
    (fun o => forall a', o = Done a' -> exists folders, a' = k folders)
    (mbind (call (Listdir (pathlib.str (pathlib.of_str r)))
              (fun env h => listdir env h (pathlib.str (pathlib.of_str r))))
       (fun items =>
          mbind (source_folders_loop r items [])
            (fun source_folders => ret (k source_folders)))).
Proof.
  intros HL HI.
  eapply (yields_bind _ _ (fun _ => True)).
  - apply yields_call; [exact HL|intros; exact I].
  - intros items _. eapply (yields_bind _ _ (fun _ => True)).
    + apply source_folders_loop_yields, HI.
    + intros sf _. apply yields_ret. intros a' [= <-]. eauto.
    + intros f _ a' [=].
  - intros f _ a' [=].
Qed.



Lemma not_done_Failed {A : Type} (f : failure) : not_done (@Failed A f).
Proof. intros a H. discriminate H. Qed.

(** In a reproduction run the directory names need [int(self.args.epoch)]. *)
Lemma set_epoch_dirs_fails (env : Env) (P : event -> Prop) (epoch : string)
  (args_epoch : option string) :
  (forall n, int_of args_epoch <> Ok n) ->
  yields env P not_done (_set_epoch_dirs true epoch args_epoch).
Proof.
  intros Hno. unfold _set_epoch_dirs. destruct epoch as [|c epoch].
  - simpl. eapply (yields_bind _ _ not_done).
    + apply yields_fail. apply not_done_Failed.
    + intros t Ht. destruct (Ht t eq_refl).
    + intros f _. apply not_done_Failed.
  - simpl andb. cbv iota. eapply (yields_bind _ _ not_done).
    + destruct (int_of args_epoch) as [n|e] eqn:Hn.
      * destruct (Hno n eq_refl).
      * apply yields_fail, not_done_Failed.
    + intros t Ht. destruct (Ht t eq_refl).
    + intros f _. apply not_done_Failed.
Qed.

(** X8. A reproduction run needs an epoch argument that [int] accepts,
    also when the epoch of the run is taken from [wait]: without one no
    context is returned, and the run stops before anything is printed or
    created. *)
Theorem reproduction_needs_epoch (env : Env) (a : Namespace.t) (r : string) :
  Namespace.reproduce a = Some r ->
  (forall n, int_of (Namespace.epoch a) <> Ok n) ->
  Forall reads (fst (run env a)) /\ not_done (snd (run env a)).
Proof.
  intros Hr Hno. apply (yields_run env a reads not_done).
  unfold __init__. rewrite Hr.
  eapply (yields_bind _ _ (fun _ => True));
    [apply choose_epoch_yields; exact I| |intros; apply not_done_Failed].
  intros epoch _. cbv beta zeta.
  eapply (yields_bind _ _ _);
    [eapply (detect_sources_yields env reads r); [exact I|intros; exact I]
    |intros a0 Ha0; cbv beta|intros; apply not_done_Failed].
  destruct (Ha0 a0 eq_refl) as [folders ->]. cbn [Namespace.epoch].
  eapply (yields_bind _ _ not_done);
    [apply set_epoch_dirs_fails, Hno| |intros; apply not_done_Failed].
  intros dirs Hd. destruct (Hd dirs eq_refl).
Qed.

Lemma reproduction_needs_epoch_witness :
  Forall reads
    (fst (run (mkEnv (fun _ => 0) (fun _ => Done "/w"%string)
         (fun _ _ => Done ["irr"%string]) (fun _ _ => Done true)
         (fun _ _ => Done false) (fun _ _ => Done tt) (fun t => Done t))
            (Namespace.mk (Some "7"%string) None (Some "/d"%string)
               false false 0 false)))
  /\ not_done
       (snd (run (mkEnv (fun _ => 0) (fun _ => Done "/w"%string)
         (fun _ _ => Done ["irr"%string]) (fun _ _ => Done true)
         (fun _ _ => Done false) (fun _ _ => Done tt) (fun t => Done t))
               (Namespace.mk (Some "7"%string) None (Some "/d"%string)
                  false false 0 false))).
Proof.
  apply (reproduction_needs_epoch _ _ "/d"%string); [reflexivity|].
  intros n H. discriminate H.
Defined.

Lemma mbind_call {A B : Type} (e : event)
  (answer : Env -> list event -> outcome A) (k : A -> M B)
  (env : Env) (h : list event) :
  mbind (call e answer) k env h =
  match answer env h with
  | Done x => k x env (h ++ [e])
  | Failed f => (h ++ [e], Failed f)
  end.
Proof. unfold mbind, call. destruct (answer env h); reflexivity. Qed.

Lemma mbind_ret {A B : Type} (x : A) (k : A -> M B)
  (env : Env) (h : list event) :
  mbind (ret x) k env h = k x env h.
Proof. reflexivity. Qed.

Lemma mbind_lift_Ok {A B : Type} (r : result A) (x : A) (k : A -> M B)
  (env : Env) (h : list event) :
  r = Ok x -> mbind (lift r) k env h = k x env h.
Proof. intros ->. reflexivity. Qed.

Lemma mbind_lift_outcome {A B : Type} (o : Env -> outcome A) (x : A)
  (k : A -> M B) (env : Env) (h : list event) :
  o env = Done x -> mbind (lift_outcome o) k env h = k x env h.
Proof. intros H. unfold mbind, lift_outcome. rewrite H. reflexivity. Qed.

Lemma mbind_assoc {A B C : Type} (m : M A) (f : A -> M B) (k : B -> M C)
  (env : Env) (h : list event) :
  mbind (mbind m f) k env h = mbind m (fun x => mbind (f x) k) env h.
Proof.
  unfold mbind. destruct (m env h) as [h' [x|e]]; [|reflexivity].
  reflexivity.
Qed.

(** X11. A run without [wait], [epoch] and [reproduce] takes its epoch
    from the clock, and [int] reads the numeral back: when the working
    directory is known, the data directory is new and every directory can
    be created, the constructor returns a context whose epoch is the
    numeral of the clock's seconds, whose directories are named by it and
    whose time is that of the clock. *)
Theorem fresh_epoch_from_clock (env : Env) (a : Namespace.t)
  (e cwd : string) (d : Z) :
  truthy (Namespace.wait a) = false ->
  truthy (Namespace.epoch a) = false ->
  Namespace.reproduce a = None ->
  PyMore.str_int (time_time env []) = Ok e ->
  utcfromtimestamp env (time_time env []) = Done d ->
  (forall h, getcwd env h = Done cwd) ->
  (forall h, exists_ env h (made (sub2 cwd "data" e)) = Done false) ->
  (forall h p, mkdir env h p = Done tt) ->
  exists ctx,
    snd (run env a) = Done ctx
    /\ epoch ctx = e /\ epoch_dir ctx = e /\ epoch_datetime ctx = d
    /\ reproduce ctx = false
    /\ data_dir ctx = sub2 cwd "data" e
    /\ out_dir ctx = sub2 cwd "out" e.
Proof.
  intros Hw He Hr Hstr Hdt Hcwd Hex Hmk.
  pose proof (int_reads_back_str _ _ Hstr) as Hint.
  unfold run, __init__. rewrite Hw, He, Hr.
  rewrite mbind_assoc, mbind_call. cbv beta iota.
  rewrite (mbind_lift_Ok _ e) by exact Hstr.
  rewrite mbind_ret.
  unfold _set_epoch_dirs. cbn [andb]. cbv iota.
  rewrite !mbind_assoc.
  rewrite (mbind_lift_Ok _ _ _ _ _ Hint).
  rewrite mbind_assoc.
  rewrite (mbind_lift_outcome _ d) by exact Hdt.
  rewrite mbind_ret. cbv beta iota.
  rewrite mbind_call, Hcwd. cbv beta iota zeta.
  repeat (rewrite Hr; cbv iota). unfold made in Hex.
  rewrite mbind_call, Hex. cbv beta iota. cbn [andb negb].
  rewrite mbind_ret.
  unfold make, when.
  repeat first
    [ rewrite mbind_assoc
    | rewrite mbind_call, Hmk; cbv beta iota
    | rewrite mbind_ret
    | match goal with
      | |- context [if ?c then _ else _] => destruct c
      end ].
  all: eexists; split; [reflexivity|]; cbn; rewrite ?Hr; cbn; rewrite ?Hr;
    auto 10.
Qed.

Lemma fresh_epoch_from_clock_witness :
  exists ctx,
    snd (run (mkEnv (fun _ => 1700000000) (fun _ => Done "/w"%string)
                   (fun _ _ => Done []) (fun _ _ => Done true)
                   (fun _ _ => Done false) (fun _ _ => Done tt)
                   (fun t => Done t))
           (Namespace.mk None None None true false 0 false)) = Done ctx
    /\ epoch ctx = "1700000000"%string
    /\ epoch_dir ctx = "1700000000"%string
    /\ epoch_datetime ctx = 1700000000
    /\ reproduce ctx = false
    /\ data_dir ctx = sub2 "/w" "data" "1700000000"
    /\ out_dir ctx = sub2 "/w" "out" "1700000000".
Proof.
  apply (fresh_epoch_from_clock _ _ "1700000000"%string "/w"%string);
    try reflexivity; intros; reflexivity.
Defined.

Lemma mbind_fail {A B : Type} (f : failure) (k : A -> M B)
  (env : Env) (h : list event) :
  mbind (fail f) k env h = (h, Failed f).
Proof. reflexivity. Qed.

Lemma mbind_lift {A B : Type} (r : result A) (k : A -> M B)
  (env : Env) (h : list event) :
  mbind (lift r) k env h =
  match r with
  | Ok x => k x env h
  | Raise e => (h, Failed (Builtin e))
  end.
Proof. destruct r; reflexivity. Qed.

Lemma mbind_lift_outcome_value {A B : Type} (o : Env -> outcome A)
  (k : A -> M B) (env : Env) (h : list event) :
  mbind (lift_outcome o) k env h =
  match o env with
  | Done x => k x env h
  | Failed f => (h, Failed f)
  end.
Proof. unfold mbind, lift_outcome. destruct (o env); reflexivity. Qed.

Ltac stopped :=
  cbn [fst snd app]; split; [repeat constructor|apply not_done_Failed].

(** X9. A run that is not a reproduction refuses an epoch whose data
    directory exists: if the file system says that the directory
    [data/<epoch>] of the working directory exists, the epoch being the one
    the run has chosen, no context is returned and no directory is
    created. *)
Theorem existing_epoch_is_refused (env : Env) (a : Namespace.t) :
  Namespace.reproduce a = None ->
  (forall h cwd e,
      run_epoch env a = Ok e ->
      getcwd env h = Done cwd ->
      exists_ env (h ++ [Getcwd]) (made (sub2 cwd "data" e)) = Done true) ->
  Forall creates_nothing (fst (run env a)) /\ not_done (snd (run env a)).
Proof.
  intros Hr Hex. unfold run_epoch, made in Hex.
  unfold run, __init__. rewrite Hr.
  destruct (truthy (Namespace.wait a)) eqn:Hw;
    [|destruct (truthy (Namespace.epoch a)) eqn:He;
      [|rewrite mbind_assoc, mbind_call; cbv beta iota; rewrite mbind_lift;
        destruct (PyMore.str_int (time_time env [])) as [e|x] eqn:Hs;
        [|stopped]]];
    rewrite ?mbind_ret; unfold _set_epoch_dirs; cbn [andb]; cbv iota;
    rewrite !mbind_assoc, mbind_lift;
    (match goal with
     | |- context [Py.int ?e Py.Base10] =>
         destruct (Py.int e Py.Base10) as [t|x]
     end; [|stopped]);
    rewrite mbind_assoc, mbind_lift_outcome_value;
    (destruct (utcfromtimestamp env t) as [d|f]; [|stopped]);
    rewrite mbind_ret; cbv beta iota;
    rewrite mbind_call;
    (match goal with
     | |- context [getcwd env ?h] =>
         destruct (getcwd env h) as [cwd|f] eqn:Hc
     end; [|stopped]);
    cbv zeta; rewrite Hr; cbv iota; rewrite Hr; cbv iota;
    rewrite mbind_call, (Hex _ cwd _ eq_refl Hc); cbv beta iota;
    cbn [andb negb];
    rewrite mbind_assoc, mbind_call; cbv beta iota; rewrite mbind_fail;
    stopped.
Qed.

Lemma existing_epoch_is_refused_witness :
  Forall creates_nothing
    (fst (run (mkEnv (fun _ => 0) (fun _ => Done "/w"%string)
              (fun _ _ => Done []) (fun _ _ => Done true)
              (fun _ p => Done (String.eqb p "/w/data/7"))
              (fun _ _ => Done tt) (fun t => Done t))
            (Namespace.mk None (Some "7"%string) None true true 0 false)))
  /\ not_done
       (snd (run (mkEnv (fun _ => 0) (fun _ => Done "/w"%string)
              (fun _ _ => Done []) (fun _ _ => Done true)
              (fun _ p => Done (String.eqb p "/w/data/7"))
              (fun _ _ => Done tt) (fun t => Done t))
               (Namespace.mk None (Some "7"%string) None true true 0 false))).
Proof.
  apply existing_epoch_is_refused; [reflexivity|].
  intros h cwd e [= <-] [= <-]. reflexivity.
Defined.


Lemma falsy_int_fails (x : option string) :
  truthy x = false -> forall n, int_of x <> Ok n.
Proof.
  destruct x as [[|c s]|]; simpl; intros H n Hn;
    first [discriminate H | discriminate Hn
          | vm_compute in Hn; discriminate Hn].
Qed.

(** The epoch of the run: [wait] before [epoch] before the clock. *)
Lemma choose_epoch_value (env : Env) (P : event -> Prop) (a : Namespace.t) :
  P Time ->
  yields env P
    (fun o => forall e, o = Done e ->
       e = (if truthy (Namespace.wait a) then the (Namespace.wait a)
            else the (Namespace.epoch a))
       \/ (truthy (Namespace.wait a) = false
           /\ truthy (Namespace.epoch a) = false))
    (if truthy (Namespace.wait a) then ret (the (Namespace.wait a))
     else if truthy (Namespace.epoch a)
     then ret (the (Namespace.epoch a))
     else
       t <-- call Time (fun env h => Done (time_time env h)) ;;
       lift (PyMore.str_int t)).
Proof.
  intros HP. destruct (truthy (Namespace.wait a)).
  - apply yields_ret. intros e [= <-]. auto.
  - destruct (truthy (Namespace.epoch a)).
    + apply yields_ret. intros e [= <-]. auto.
    + eapply (yields_bind _ _ (fun _ => True)).
      * apply yields_call; [exact HP|intros; exact I].
      * intros t _. apply yields_lift; intros; auto.
      * intros f _ e [=].
Qed.

(** The names of a reproduction run: the directory after the epoch of the
    run, the time after [args.epoch]. *)
Lemma set_epoch_dirs_reproduce (env : Env) (P : event -> Prop)
  (epoch : string) (args_epoch : option string) :
  yields env P
    (fun o => forall dirs, o = Done dirs ->
       fst dirs = String "r" epoch
       /\ exists t, int_of args_epoch = Ok t
                    /\ utcfromtimestamp env t = Done (snd dirs))
    (_set_epoch_dirs true epoch args_epoch).
Proof.
  unfold _set_epoch_dirs. destruct epoch as [|c epoch].
  - simpl. eapply (yields_bind _ _ not_done).
    + apply yields_fail. apply not_done_Failed.
    + intros t Ht. destruct (Ht t eq_refl).
    + intros f _ dirs [=].
  - simpl andb. cbv iota.
    eapply (yields_bind _ _ (fun o => forall t, o = Done t ->
                                       int_of args_epoch = Ok t)).
    + apply yields_lift.
      * intros t Ht t' [= <-]. exact Ht.
      * intros e _ t [=].
    + intros t Ht. specialize (Ht t eq_refl).
      eapply (yields_bind _ _ (fun o => o = utcfromtimestamp env t)).
      * apply yields_lift_outcome. reflexivity.
      * intros d Hd. apply yields_ret. intros dirs [= <-]. simpl.
        split; [reflexivity|]. exists t. auto.
      * intros f _ dirs [=].
    + intros f _ dirs [=].
Qed.

(** X12. What a reproduction run returns: the run directory is named
    after the epoch of the run, which is [wait] when that is given, but the
    time is that of [args.epoch]; the data directory is the reproduced
    directory, with a slash at its end, and is written back to the
    arguments. *)
Theorem reproduction_result (env : Env) (a : Namespace.t) (r : string)
  (ctx : Context) :
  Namespace.reproduce a = Some r ->
  snd (run env a) = Done ctx ->
  reproduce ctx = true
  /\ epoch ctx = (if truthy (Namespace.wait a) then the (Namespace.wait a)
                  else the (Namespace.epoch a))
  /\ epoch_dir ctx = String "r" (epoch ctx)
  /\ (exists t, int_of (Namespace.epoch a) = Ok t
                /\ utcfromtimestamp env t = Done (epoch_datetime ctx))
  /\ data_dir ctx = (if PyMore.endswith_slash r then r else (r ++ "/")%string)
  /\ Namespace.reproduce (args ctx) = Some (data_dir ctx).
Proof.
  intros Hr Hrun.
  refine (proj2 (yields_run env a (fun _ => True) (fun o => forall c,
            o = Done c -> _) _) ctx Hrun).
  unfold __init__. rewrite Hr.
  eapply (yields_bind _ _ _);
    [apply choose_epoch_value; exact I
    |intros ep He; specialize (He ep eq_refl); cbv beta zeta
    |intros f _ c [=]].
  eapply (yields_bind _ _ _);
    [eapply (detect_sources_yields env _ r); [exact I|intros; exact I]
    |intros a0 Ha0; cbv beta|intros f _ c [=]].
  destruct (Ha0 a0 eq_refl) as [folders ->]. cbn [Namespace.epoch].
  eapply (yields_bind _ _ _);
    [apply set_epoch_dirs_reproduce
    |intros [epoch_dir dt] Hd; cbv beta iota|intros f _ c [=]].
  destruct (Hd _ eq_refl) as (Hdir & t & Ht & Hdt). simpl in Hdir, Hdt.
  subst epoch_dir.
  assert (Hepoch : ep =
                   if truthy (Namespace.wait a) then the (Namespace.wait a)
                   else the (Namespace.epoch a)).
  { destruct He as [He|[_ He]]; [exact He|].
    destruct (falsy_int_fails _ He t Ht). }
  clear He.
  eapply (yields_bind _ _ (fun _ => True));
    [emit_auto|intros cwd _; cbv beta zeta|intros f _ c [=]].
  cbn [Namespace.reproduce].
  eapply (yields_bind _ _ (fun _ => True));
    [emit_auto|intros found _|intros f _ c [=]].
  eapply (yields_bind _ _ (fun _ => True));
    [emit_auto|intros _ _|intros f _ c [=]].
  eapply (yields_bind _ _ (fun _ => True));
    [emit_auto|intros _ _|intros f _ c [=]].
  eapply (yields_bind _ _ (fun _ => True));
    [unfold make; emit_auto|intros _ _|intros f _ c [=]].
  eapply (yields_bind _ _ (fun _ => True));
    [unfold when, make; emit_auto|intros _ _|intros f _ c [=]].
  eapply (yields_bind _ _ (fun _ => True));
    [unfold when, make; emit_auto|intros _ _|intros f _ c [=]].
  apply yields_ret. intros c [= <-]. cbn [reproduce epoch epoch_dir
    epoch_datetime data_dir args].
  repeat split; auto.
  - exists t. auto.
  - destruct (PyMore.endswith_slash r); reflexivity.
  - destruct (PyMore.endswith_slash r); reflexivity.
Qed.

Lemma reproduction_result_witness :
  match
    snd (run (mkEnv (fun _ => 0) (fun _ => Done "/w"%string)
           (fun _ _ => Done ["irr"%string; "x"%string])
           (fun _ _ => Done true) (fun _ _ => Done false)
           (fun _ _ => Done tt) (fun t => Done t))
           (Namespace.mk (Some "9"%string) (Some "7"%string)
           (Some "d/1"%string) false true 0 true))
  with
  | Done ctx =>
      reproduce ctx = true
      /\ epoch ctx = "9"%string
      /\ epoch_dir ctx = String "r" (epoch ctx)
      /\ (exists t, int_of (Some "7"%string) = Ok t
                    /\ utcfromtimestamp
                         (mkEnv (fun _ => 0) (fun _ => Done "/w"%string)
                         (fun _ _ => Done ["irr"%string; "x"%string])
                         (fun _ _ => Done true) (fun _ _ => Done false)
                         (fun _ _ => Done tt) (fun t => Done t)) t
                       = Done (epoch_datetime ctx))
      /\ data_dir ctx = "d/1/"%string
      /\ Namespace.reproduce (args ctx) = Some (data_dir ctx)
  | Failed _ => False
  end.
Proof.
  destruct (snd (run _ _)) as [ctx|f] eqn:H.
  - refine (reproduction_result _ _ "d/1"%string ctx _ H). reflexivity.
  - vm_compute in H. discriminate H.
Defined.

Lemma created_app (l1 l2 : list event) :
  created (l1 ++ l2) = created l1 ++ created l2.
Proof.
  induction l1 as [|e l1 IH]; [reflexivity|].
  destruct e; simpl; rewrite IH; reflexivity.
Qed.


Lemma creates_bind {A B : Type} (env : Env) (D1 : A -> list string -> Prop)
  (D2 : B -> list string -> Prop) (m : M A) (k : A -> M B) :
  creates env D1 m ->
  (forall a, creates env (fun b l2 => forall l1, D1 a l1 -> D2 b (l1 ++ l2))
               (k a)) ->
  creates env D2 (mbind m k).
Proof.
  intros Hm Hk h. destruct (Hm h) as (new1 & Htr1 & HD1).
  unfold mbind. destruct (m env h) as [h' [a|f]]; simpl in Htr1; subst h'.
  - destruct (Hk a (h ++ new1)) as (new2 & Htr2 & HD2).
    exists (new1 ++ new2). split.
    + rewrite Htr2, app_assoc. reflexivity.
    + intros b Hb. rewrite created_app. apply (HD2 b Hb), HD1. reflexivity.
  - exists new1. split; [reflexivity|]. intros b [=].
Qed.







(** X13. The layout of a run. The constructor keeps its directories as
    text and makes a path of the text again for every directory below;
    nothing is lost by that: in the context it returns, every output
    directory and, outside a reproduction, every data directory is the text
    of the path joined in one go from the working directory the system
    reported, [out] or [data], the run directory and the names below. *)
Theorem context_directory_layout (env : Env) (a : Namespace.t)
  (ctx : Context) :
  snd (run env a) = Done ctx ->
  exists cwd,
    (exists h, getcwd env h = Done cwd)
    /\ (let out :=
          pathlib.truediv (pathlib.truediv (pathlib.of_str cwd) "out")
            (epoch_dir ctx) in
        out_dir ctx = pathlib.str out
        /\ out_dir_rpki ctx = pathlib.str (pathlib.truediv out "rpki")
        /\ out_dir_irr ctx = pathlib.str (pathlib.truediv out "irr")
        /\ out_dir_collectors ctx
           = pathlib.str (pathlib.truediv out "collectors")
        /\ final_result_file ctx
           = pathlib.str (pathlib.truediv out "final_result.txt"))
    /\ (reproduce ctx = false ->
        let data :=
          pathlib.truediv (pathlib.truediv (pathlib.of_str cwd) "data")
            (epoch_dir ctx) in
        data_dir ctx = pathlib.str data
        /\ data_dir_irr ctx = pathlib.str (pathlib.truediv data "irr")
        /\ data_dir_rpki_cache ctx
           = pathlib.str
               (pathlib.truediv (pathlib.truediv data "rpki") "cache")
        /\ data_dir_rpki_tals ctx
           = pathlib.str
               (pathlib.truediv (pathlib.truediv data "rpki") "tals")
        /\ data_dir_collectors ctx
           = pathlib.str (pathlib.truediv data "collectors")).
Proof.
  intros Hrun.
  refine (proj2 (yields_run env a (fun _ => True) (fun o => forall c,
            o = Done c -> _) _) ctx Hrun).
  unfold __init__.
  eapply (yields_bind _ _ (fun _ => True));
    [apply choose_epoch_yields; exact I|intros ep _; cbv beta zeta
    |intros f _ c [=]].
  eapply (yields_bind _ _
            (fun o => forall a0, o = Done a0 ->
                        Namespace.reproduce a = None -> a0 = a));
    [|intros a0 Ha0; specialize (Ha0 a0 eq_refl); cbv beta
     |intros f _ c [=]].
  { destruct (Namespace.reproduce a) as [r|].
    - eapply yields_weaken;
        [eapply (detect_sources_yields _ (fun _ => True));
         [exact I|intros; exact I]
        |auto|intros o _ a0 _ [=]].
    - apply yields_ret. intros a0 [= <-] _. reflexivity. }
  eapply (yields_bind _ _ (fun _ => True));
    [eapply yields_weaken;
     [apply (set_epoch_dirs_yields _ (fun _ => True))|auto|intros; exact I]
    |intros [ed dt] _; cbv beta iota|intros f _ c [=]].
  eapply (yields_bind _ _ (fun o => exists h, o = getcwd env h));
    [apply yields_call; [exact I|intros h; exists h; reflexivity]
    |intros cwd [h Hc]; cbv beta zeta|intros f _ c [=]].
  eapply (yields_bind _ _ (fun _ => True));
    [emit_auto|intros found _|intros f _ c [=]].
  eapply (yields_bind _ _ (fun _ => True));
    [emit_auto|intros _ _|intros f _ c [=]].
  eapply (yields_bind _ _ (fun _ => True));
    [unfold when, make; emit_auto|intros _ _|intros f _ c [=]].
  eapply (yields_bind _ _ (fun _ => True));
    [unfold make; emit_auto|intros _ _|intros f _ c [=]].
  eapply (yields_bind _ _ (fun _ => True));
    [unfold when, make; emit_auto|intros _ _|intros f _ c [=]].
  eapply (yields_bind _ _ (fun _ => True));
    [unfold when, make; emit_auto|intros _ _|intros f _ c [=]].
  apply yields_ret. intros c [= <-].
  cbn [reproduce epoch_dir data_dir data_dir_irr data_dir_rpki_cache
       data_dir_rpki_tals data_dir_collectors out_dir out_dir_irr
       out_dir_rpki out_dir_collectors final_result_file].
  exists cwd. split; [exists h; auto|]. split.
  - cbv zeta. split; [reflexivity|].
    repeat split; apply (proj1 (sub_of_sub2 cwd "out" ed _ EmptyString)).
  - intros Hrep. destruct (Namespace.reproduce a) as [r|] eqn:Hr;
      [discriminate Hrep|].
    rewrite (Ha0 eq_refl), Hr. cbv iota zeta. rewrite Hr.
    split; [reflexivity|].
    repeat split;
      first [apply (proj1 (sub_of_sub2 cwd "data" ed _ EmptyString))
            |apply (proj2 (sub_of_sub2 cwd "data" ed _ _))].
Qed.

Lemma context_directory_layout_witness :
  match
    snd (run (mkEnv (fun _ => 0) (fun _ => Done "/w"%string)
           (fun _ _ => Done ["irr"%string; "x"%string])
           (fun _ _ => Done true) (fun _ _ => Done false)
           (fun _ _ => Done tt) (fun t => Done t))
           (Namespace.mk None (Some "7"%string) None true false 0 false))
  with
  | Done ctx =>
      exists cwd,
        (exists h, getcwd
                     (mkEnv (fun _ => 0) (fun _ => Done "/w"%string)
                         (fun _ _ => Done ["irr"%string; "x"%string])
                         (fun _ _ => Done true) (fun _ _ => Done false)
                         (fun _ _ => Done tt) (fun t => Done t)) h = Done cwd)
        /\ (let out :=
              pathlib.truediv (pathlib.truediv (pathlib.of_str cwd) "out")
                (epoch_dir ctx) in
            out_dir ctx = pathlib.str out
            /\ out_dir_rpki ctx = pathlib.str (pathlib.truediv out "rpki")
            /\ out_dir_irr ctx = pathlib.str (pathlib.truediv out "irr")
            /\ out_dir_collectors ctx
               = pathlib.str (pathlib.truediv out "collectors")
            /\ final_result_file ctx
               = pathlib.str (pathlib.truediv out "final_result.txt"))
        /\ (reproduce ctx = false ->
            let data :=
              pathlib.truediv (pathlib.truediv (pathlib.of_str cwd) "data")
                (epoch_dir ctx) in
            data_dir ctx = pathlib.str data
            /\ data_dir_irr ctx = pathlib.str (pathlib.truediv data "irr")
            /\ data_dir_rpki_cache ctx
               = pathlib.str
                   (pathlib.truediv (pathlib.truediv data "rpki") "cache")
            /\ data_dir_rpki_tals ctx
               = pathlib.str
                   (pathlib.truediv (pathlib.truediv data "rpki") "tals")
            /\ data_dir_collectors ctx
               = pathlib.str (pathlib.truediv data "collectors"))
  | Failed _ => False
  end.
Proof.
  destruct (snd (run _ _)) as [ctx|f] eqn:H.
  - apply (context_directory_layout _ _ ctx H).
  - vm_compute in H. discriminate H.
Defined.

End RunContext.
